(** * DetailedTvlController: sync gating, validation and the reconciliation helpers

    Shallow embedding of [DetailedTvlController]
    (packages/backend/src/peripherals/database/CachedDataRepository.ts,
    second document of the file).  The controller is asynchronous code over
    five repositories; every [await]ed repository call is an event of a small
    free monad [Prog], so that the order and the presence of storage queries
    can be stated.  The helpers the controller imports from [./timerange],
    [./detailedTvl], [./charts] and [./generateDetailedTvlApiResponse] are not
    part of the sources at hand: the controller is generic in them (class
    [Helpers]); the parts of them that the specification describes are
    modelled from its words in the modules [GapFiller], [Grouper],
    [ResponseGenerator] and [BreakdownMerger].  The other two documents of
    the file, the single-row [CachedDataRepository] and the Kroma proposer
    script, are embedded in the modules [CachedDataRepository] and [Kroma]. *)

From stdpp Require Import gmap strings list fin_maps sorting pretty.
From Stdlib Require Import ZArith Lia.
From Equations Require Import Equations.

Local Open Scope Z_scope.

(** ** Data model *)

(** [UnixTime] wraps a number of seconds; the object itself is never falsy,
    so [!latestTimestamp] only tests for [undefined]. *)
Abbreviation UnixTime := Z (only parsing).
Abbreviation ProjectId := string (only parsing).
Abbreviation AssetId := string (only parsing).
Abbreviation ChainId := Z (only parsing).
Abbreviation Hash256 := string (only parsing).

(** The value types named in the controller ('EBV', 'NMV' literals, CBV in
    its comments). *)
Inductive ReportType : Type := CBV | EBV | NMV.

Module Token.
Record t : Type := { id : AssetId; symbol : string; decimals : Z }.
End Token.

Module ReportProject.
Record t : Type := { projectId : ProjectId }.
End ReportProject.

Record DetailedTvlControllerOptions : Type :=
  { errorOnUnsyncedDetailedTvl : bool }.

Inductive ErrorCode : Type :=
| DATA_NOT_FULLY_SYNCED
| NO_DATA
| INVALID_PROJECT_OR_ASSET.

(** [{ result: 'success', data } | { result: 'error', error }] *)
Inductive Result (A : Type) : Type :=
| success (data : A)
| error (e : ErrorCode).
Arguments success {A} data.
Arguments error {A} e.

(** The argument object [{ hourly, sixHourly, daily }]. *)
Record ByResolution (A : Type) : Type :=
  { hourly : A; sixHourly : A; daily : A }.
Arguments hourly {A} _.
Arguments sixHourly {A} _.
Arguments daily {A} _.

(** The object [{ filledHourlyReports, filledSixHourlyReports,
    filledDailyReports }] returned by the fill helpers. *)
Record Filled (A : Type) : Type :=
  { filledHourlyReports : A; filledSixHourlyReports : A; filledDailyReports : A }.
Arguments filledHourlyReports {A} _.
Arguments filledSixHourlyReports {A} _.
Arguments filledDailyReports {A} _.

(** The argument object [{ external, native, canonical }]. *)
Record BreakdownSources (N C : Type) : Type :=
  { external : N; native : N; canonical : C }.
Arguments external {N C} _.
Arguments native {N C} _.
Arguments canonical {N C} _.

(** [TvlApiChart] and [TvlApiCharts]. *)
Record TvlApiChart (D : Type) : Type :=
  { types : string * string * string; data : D }.
Arguments types {D} _.
Arguments data {D} _.

Record TvlApiCharts (D : Type) : Type :=
  { chartsHourly : TvlApiChart D;
    chartsSixHourly : TvlApiChart D;
    chartsDaily : TvlApiChart D }.
Arguments chartsHourly {D} _.
Arguments chartsSixHourly {D} _.
Arguments chartsDaily {D} _.

(** [{ dataTimestamp, breakdowns }] *)
Record ProjectAssetsBreakdownApiResponse (B : Type) : Type :=
  { dataTimestamp : UnixTime; breakdowns : B }.
Arguments dataTimestamp {B} _.
Arguments breakdowns {B} _.

(** Result of [findCountsForHash]. *)
Record Counts : Type := { matching : Z; different : Z }.

(** The object built by [getDataTimings]. *)
Record DataTimings : Type :=
  { syncedReportsAmount : Z;
    unsyncedReportsAmount : Z;
    isSynced : bool;
    latestTimestamp : option UnixTime }.

(** ** The reconciliation helpers, modelled from the specification *)

(** Modelled from the spec: the [Report] row of the storage layer (data
    model: projectId, chainId, assetId, valueType, timestamp, valueAsset,
    valueUsd).  Its declaration is not part of the sources; amounts are
    exact integers (fixed precision). *)
Module Report.
Record t : Type :=
  { projectId : ProjectId;
    chainId : ChainId;
    assetId : AssetId;
    valueType : ReportType;
    timestamp : UnixTime;
    valueAsset : Z;
    valueUsd : Z }.
End Report.

(** Modelled from the spec: the [AggregatedReport] row (projectId or
    synthetic id, valueType, timestamp, valueUsd); declared outside the
    sources. *)
Module AggregatedReport.
Record t : Type :=
  { projectId : ProjectId;
    valueType : ReportType;
    timestamp : UnixTime;
    valueUsd : Z }.
End AggregatedReport.

(** What the gap filler reads off a row: its key, its slot and its two
    numeric columns. *)
Class SlotRow (A : Type) : Type :=
  { rowKey : A -> string;
    rowTimestamp : A -> UnixTime;
    rowAmount : A -> Z;
    rowUsd : A -> Z }.

#[export] Instance Report_SlotRow : SlotRow Report.t :=
  {| rowKey := Report.projectId;
     rowTimestamp := Report.timestamp;
     rowAmount := Report.valueAsset;
     rowUsd := Report.valueUsd |}.

(** An aggregated row has no asset column; it contributes nothing to it. *)
#[export] Instance AggregatedReport_SlotRow : SlotRow AggregatedReport.t :=
  {| rowKey := AggregatedReport.projectId;
     rowTimestamp := AggregatedReport.timestamp;
     rowAmount := fun _ => 0;
     rowUsd := AggregatedReport.valueUsd |}.

Module GapFiller.

Inductive Resolution : Type := Hourly | SixHourly | Daily.

(** Modelled from the spec: step and retention window are injected
    configuration constants; hourly and six-hourly are bounded to recent
    history, daily has no lower bound and starts at genesis. *)
Record Config : Type :=
  { step : Resolution -> positive;
    hourlyWindow : N;
    sixHourlyWindow : N;
    genesis : UnixTime }.

(** Modelled from the spec: "minimum timestamp = latestTimestamp -
    resolution.window (clamped to epoch/genesis for the unbounded daily
    case)". *)
Definition minTimestamp (cfg : Config) (r : Resolution) (latest : UnixTime) : UnixTime :=
  match r with
  | Hourly => latest - Z.of_N (hourlyWindow cfg)
  | SixHourly => latest - Z.of_N (sixHourlyWindow cfg)
  | Daily => genesis cfg
  end.

(** One entry of a [FilledSeries]. *)
Record SeriesEntry : Type :=
  { entryTimestamp : UnixTime; assetAmount : Z; usdValue : Z }.

(** Modelled from the spec: the slot boundaries run from the minimum to the
    maximum timestamp, "stepping by resolution.step"; this is the loop
    [for (t = min; t <= max; t += step)]. *)
Equations? slotsFrom (st : positive) (hi t : Z) : list Z
  by wf (Z.to_nat (hi - t + 1)) lt :=
  slotsFrom st hi t with decide (t <= hi) => {
    | left _ := t :: slotsFrom st hi (t + Z.pos st);
    | right _ := [] }.
Proof. lia. Qed.

Definition slots (cfg : Config) (r : Resolution) (latest : UnixTime) : list Z :=
  slotsFrom (step cfg r) latest (minTimestamp cfg r latest).

Section Fill.
Context {A : Type} `{SlotRow A}.

(** Modelled from the spec: "for each slot, looks up a matching row". *)
Definition matchingRows (key : string) (t : UnixTime) (rows : list A) : list A :=
  filter (fun r => rowKey r = key /\ rowTimestamp r = t) rows.

(** Modelled from the spec: "a placeholder carrying zero for every numeric
    field and the slot's timestamp". *)
Definition placeholder (t : UnixTime) : SeriesEntry :=
  {| entryTimestamp := t; assetAmount := 0; usdValue := 0 |}.

(** Modelled from the spec: "if the same key has multiple rows mapped to the
    same slot, they are summed before placement". *)
Definition sumRows (t : UnixTime) (ms : list A) : SeriesEntry :=
  foldl (fun e r => {| entryTimestamp := t;
                       assetAmount := assetAmount e + rowAmount r;
                       usdValue := usdValue e + rowUsd r |})
        (placeholder t) ms.

Definition fillSlot (key : string) (rows : list A) (t : UnixTime) : SeriesEntry :=
  match matchingRows key t rows with
  | [] => placeholder t
  | ms => sumRows t ms
  end.

Definition fillSeries (cfg : Config) (r : Resolution) (rows : list A)
    (key : string) (latest : UnixTime) : list SeriesEntry :=
  fillSlot key rows <$> slots cfg r latest.

(** Modelled from the spec: [fill(resolution, rows, expectedKeys,
    latestTimestamp) -> mapping key -> FilledSeries]. *)
Definition fill (cfg : Config) (r : Resolution) (rows : list A)
    (expectedKeys : list string) (latest : UnixTime) : gmap string (list SeriesEntry) :=
  foldl (fun acc key => <[key := fillSeries cfg r rows key latest]> acc) ∅ expectedKeys.

(** Modelled from the spec: [fillAllMissingAggregatedReports] of
    [./timerange] (not part of the sources) runs the gap filler once per
    resolution over the same expected keys and latest timestamp. *)
Definition fillAllMissingAggregatedReports (cfg : Config) (projectIds : list ProjectId)
    (reports : ByResolution (list A)) (latest : UnixTime)
    : Filled (gmap string (list SeriesEntry)) :=
  {| filledHourlyReports := fill cfg Hourly (hourly reports) projectIds latest;
     filledSixHourlyReports := fill cfg SixHourly (sixHourly reports) projectIds latest;
     filledDailyReports := fill cfg Daily (daily reports) projectIds latest |}.

End Fill.

(** The per-resolution component of the argument and of the result. *)
Definition reportsAt {X : Type} (r : Resolution) (reports : ByResolution X) : X :=
  match r with
  | Hourly => hourly reports
  | SixHourly => sixHourly reports
  | Daily => daily reports
  end.

Definition filledAt {X : Type} (r : Resolution) (filled : Filled X) : X :=
  match r with
  | Hourly => filledHourlyReports filled
  | SixHourly => filledSixHourlyReports filled
  | Daily => filledDailyReports filled
  end.

End GapFiller.

Module Grouper.

Section Group.
Context {A K1 K2 : Type} `{Countable K1} `{Countable K2}.

(** Modelled from the spec: "pure reshaping with no loss of rows": each row
    is appended to the list found under its two keys.  The mappings are
    finite maps; the order in which keys were first met is not kept, the
    order of the rows inside one group is. *)
Definition groupInsert (k1 : A -> K1) (k2 : A -> K2)
    (acc : gmap K1 (gmap K2 (list A))) (r : A) : gmap K1 (gmap K2 (list A)) :=
  let inner := default ∅ (acc !! k1 r) in
  <[k1 r := <[k2 r := default [] (inner !! k2 r) ++ [r]]> inner]> acc.

Definition groupBy2 (k1 : A -> K1) (k2 : A -> K2) (rows : list A)
    : gmap K1 (gmap K2 (list A)) :=
  foldl (groupInsert k1 k2) ∅ rows.

End Group.

(** Modelled from the spec: [groupByKeyAndTimestamp(rows) -> mapping key ->
    mapping timestamp -> ordered list of Report]; [groupByProjectIdAndTimestamp]
    of [./detailedTvl] is not part of the sources. *)
Definition groupByProjectIdAndTimestamp (rows : list Report.t)
    : gmap ProjectId (gmap Z (list Report.t)) :=
  groupBy2 Report.projectId Report.timestamp rows.

(** Modelled from the spec: [groupByKeyAndAssetType(rows) -> mapping key ->
    mapping assetId -> ordered list of Report]; [groupByProjectIdAndAssetType]
    of [./detailedTvl] is not part of the sources. *)
Definition groupByProjectIdAndAssetType (rows : list Report.t)
    : gmap ProjectId (gmap AssetId (list Report.t)) :=
  groupBy2 Report.projectId Report.assetId rows.

(** Modelled from the spec: value-type deduplication, "multiple Reports at
    the same (key, timestamp) coming from different valueTypes are reduced by
    summation into a single (asset amount, usd value) pair". *)
Definition reduceReports (rs : list Report.t) : Z * Z :=
  foldl (fun acc r => (acc.1 + Report.valueAsset r, acc.2 + Report.valueUsd r)) (0, 0) rs.

(** Deduplication of grouped rows: every group becomes one pair. *)
Definition dedupeGroups {K : Type} `{Countable K}
    (grouped : gmap ProjectId (gmap K (list Report.t))) : gmap ProjectId (gmap K (Z * Z)) :=
  (fun group : gmap K (list Report.t) => reduceReports <$> group) <$> grouped.

(** The latest snapshot after deduplication: one pair per (project, asset). *)
Definition dedupe (rows : list Report.t) : gmap ProjectId (gmap AssetId (Z * Z)) :=
  dedupeGroups (groupByProjectIdAndAssetType rows).

(** A numeric series after deduplication: one pair per (project, timestamp). *)
Definition dedupeByTimestamp (rows : list Report.t) : gmap ProjectId (gmap Z (Z * Z)) :=
  dedupeGroups (groupByProjectIdAndTimestamp rows).

(** The sum of a column, to state what the reduction yields. *)
Definition total (xs : list Z) : Z := foldr Z.add 0 xs.

End Grouper.

Module ResponseGenerator.

(** Modelled from the spec: [Chart] is column labels plus ordered rows of
    (timestamp, assetAmount, usdValue). *)
Record Chart : Type :=
  { chartTypes : list string; chartData : list (Z * Z * Z) }.

Record ProjectCharts : Type :=
  { hourlyChart : Chart;
    sixHourlyChart : Chart;
    dailyChart : Chart;
    tokens : gmap AssetId (Z * Z) }.

Definition entryLe (a b : GapFiller.SeriesEntry) : Prop :=
  GapFiller.entryTimestamp a <= GapFiller.entryTimestamp b.

#[export] Instance entryLe_dec a b : Decision (entryLe a b).
Proof. unfold entryLe. apply _. Defined.

(** Modelled from the spec: "each chart's rows ordered ascending by
    timestamp"; sorting happens here, not in the grouper. *)
Definition chartOf (series : list GapFiller.SeriesEntry) : Chart :=
  {| chartTypes := ["timestamp"; "asset"; "usd"]%string;
     chartData :=
       (fun e => (GapFiller.entryTimestamp e, GapFiller.assetAmount e, GapFiller.usdValue e))
         <$> merge_sort entryLe series |}.

Definition projectCharts
    (filledHourly filledSixHourly filledDaily : gmap ProjectId (list GapFiller.SeriesEntry))
    (latestGrouped : gmap ProjectId (gmap AssetId (list Report.t)))
    (projectId : ProjectId) : ProjectCharts :=
  {| hourlyChart := chartOf (default [] (filledHourly !! projectId));
     sixHourlyChart := chartOf (default [] (filledSixHourly !! projectId));
     dailyChart := chartOf (default [] (filledDaily !! projectId));
     tokens := Grouper.reduceReports <$> default ∅ (latestGrouped !! projectId) |}.

(** Modelled from the spec: [generate(filledHourly, filledSixHourly,
    filledDaily, latestGrouped, projectIds)] yields "one chart triple
    (hourly/six-hourly/daily) per project" of [projectIds], the latest
    snapshot reduced by the grouper's deduplication rule;
    [generateDetailedTvlApiResponse] is not part of the sources. *)
Definition generateDetailedTvlApiResponse
    (filledHourly filledSixHourly filledDaily : gmap ProjectId (list GapFiller.SeriesEntry))
    (latestGrouped : gmap ProjectId (gmap AssetId (list Report.t)))
    (projectIds : list ProjectId) : gmap ProjectId ProjectCharts :=
  foldl (fun acc projectId =>
           <[projectId := projectCharts filledHourly filledSixHourly filledDaily
                            latestGrouped projectId]> acc)
        ∅ projectIds.

End ResponseGenerator.

Module BreakdownMerger.

(** Modelled from the spec: one breakdown entry, an asset with its amount and
    usd value. *)
Record BreakdownEntry : Type :=
  { entryAssetId : AssetId; amount : Z; usdValue : Z }.

(** The per-project record [{ canonical[], native[], external[] }]. *)
Record ProjectBreakdown : Type :=
  { canonicalAssets : list BreakdownEntry;
    nativeAssets : list BreakdownEntry;
    externalAssets : list BreakdownEntry }.

(** Modelled from the spec: the "single output record containing all three
    category sub-breakdowns" of one project, with "empty breakdown sets" for
    a category that does not list the project. *)
Definition mergedRecord
    (sources : BreakdownSources (gmap ProjectId (list BreakdownEntry))
                                (gmap ProjectId (list BreakdownEntry)))
    (projectId : ProjectId) : ProjectBreakdown :=
  {| canonicalAssets := default [] (canonical sources !! projectId);
     nativeAssets := default [] (native sources !! projectId);
     externalAssets := default [] (external sources !! projectId) |}.

(** Modelled from the spec: [merge(projects, {external, native, canonical})
    -> mapping projectId -> breakdown], one record "for each project in
    [projects]"; [groupAndMergeBreakdowns] of [./detailedTvl] is not part of
    the sources. *)
Definition groupAndMergeBreakdowns (projects : list ReportProject.t)
    (sources : BreakdownSources (gmap ProjectId (list BreakdownEntry))
                                (gmap ProjectId (list BreakdownEntry)))
    : gmap ProjectId ProjectBreakdown :=
  foldl (fun acc p =>
           <[ReportProject.projectId p :=
               mergedRecord sources (ReportProject.projectId p)]> acc)
        ∅ projects.

End BreakdownMerger.

(** ** The controller *)

(** What [DetailedTvlController] imports: row and response types declared in
    other packages, the synthetic project ids, [String.prototype.toLowerCase]
    and the helper functions of [../utils], [./timerange], [./detailedTvl],
    [./charts] and [./generateDetailedTvlApiResponse].  The controller is
    generic in all of them. *)
Class Helpers : Type :=
  { ReportRecord : Type;
    AggregatedReportRecord : Type;
    BalanceRecord : Type;
    PriceRecord : Type;
    FilledAggregated : Type;
    GroupedByTimestamp : Type;
    GroupedByAsset : Type;
    DetailedTvlApiResponse : Type;
    FilledAsset : Type;
    ChartData : Type;
    NonCanonicalBreakdown : Type;
    CanonicalBreakdown : Type;
    Breakdowns : Type;
    ProjectId_ALL : ProjectId;
    ProjectId_BRIDGES : ProjectId;
    ProjectId_LAYER2S : ProjectId;
    toLowerCase : string -> string;
    getHourlyMinTimestamp : UnixTime -> UnixTime;
    getSixHourlyMinTimestamp : UnixTime -> UnixTime;
    fillAllMissingAggregatedReports :
      list ProjectId -> ByResolution (list AggregatedReportRecord) -> UnixTime ->
      Filled FilledAggregated;
    fillAllMissingAssetReports :
      Token.t -> ProjectId -> ByResolution (list ReportRecord) -> UnixTime ->
      Filled FilledAsset;
    groupByProjectIdAndTimestamp : FilledAggregated -> GroupedByTimestamp;
    groupByProjectIdAndAssetType : list ReportRecord -> GroupedByAsset;
    generateDetailedTvlApiResponse :
      GroupedByTimestamp -> GroupedByTimestamp -> GroupedByTimestamp ->
      GroupedByAsset -> list ProjectId -> DetailedTvlApiResponse;
    getProjectAssetChartData : FilledAsset -> Z -> ChartData;
    getNonCanonicalAssetsBreakdown :
      list ReportRecord -> list Token.t -> ReportType -> NonCanonicalBreakdown;
    getCanonicalAssetsBreakdown :
      list BalanceRecord -> list PriceRecord -> list ReportProject.t -> CanonicalBreakdown;
    groupAndMergeBreakdowns :
      list ReportProject.t -> BreakdownSources NonCanonicalBreakdown CanonicalBreakdown ->
      Breakdowns }.

(** The constructor arguments that are data; the five repositories are the
    storage the program runs against, and the logger is not modelled. *)
Record DetailedTvlController : Type :=
  { projects : list ReportProject.t;
    tokens : list Token.t;
    aggregatedConfigHash : Hash256;
    options : DetailedTvlControllerOptions }.

Section Controller.
Context `{Helpers}.

(** The repository methods the controller awaits, indexed by what they
    resolve to. *)
Inductive Query : Type -> Type :=
| FindCountsForHash (hash : Hash256) : Query Counts
| FindLatestTimestamp : Query (option UnixTime)
| GetHourlyWithAnyType (from : UnixTime) : Query (list AggregatedReportRecord)
| GetSixHourlyWithAnyType (from : UnixTime) : Query (list AggregatedReportRecord)
| GetDailyWithAnyType : Query (list AggregatedReportRecord)
| ReportGetByTimestamp (t : UnixTime) : Query (list ReportRecord)
| GetHourlyForDetailed (p : ProjectId) (c : ChainId) (a : AssetId) (ty : ReportType)
    (from : UnixTime) : Query (list ReportRecord)
| GetSixHourlyForDetailed (p : ProjectId) (c : ChainId) (a : AssetId) (ty : ReportType)
    (from : UnixTime) : Query (list ReportRecord)
| GetDailyForDetailed (p : ProjectId) (c : ChainId) (a : AssetId) (ty : ReportType)
    : Query (list ReportRecord)
| BalanceGetByTimestamp (t : UnixTime) : Query (list BalanceRecord)
| PriceGetByTimestamp (t : UnixTime) : Query (list PriceRecord).

(** An asynchronous computation: it either has its value or awaits one
    storage query and goes on with the answer. *)
Inductive Prog (A : Type) : Type :=
| Ret (a : A)
| Await {X : Type} (q : Query X) (k : X -> Prog A).
#[global] Arguments Ret {A} a.
#[global] Arguments Await {A X} q k.

Fixpoint Prog_bind {A B : Type} (k : A -> Prog B) (p : Prog A) : Prog B :=
  match p with
  | Ret a => k a
  | Await q k' => Await q (fun x => Prog_bind k (k' x))
  end.

#[export] Instance Prog_ret : MRet Prog := fun A a => Ret a.
#[export] Instance Prog_mbind : MBind Prog := fun A B k p => Prog_bind k p.

Definition await {X : Type} (q : Query X) : Prog X := Await q Ret.

(** The state of the storage layer: the answer to every query. *)
Definition Storage : Type := forall X : Type, Query X -> X.

(** A query that was sent to the storage layer. *)
Inductive Issued : Type :=
| issued {X : Type} (q : Query X).

(** Running a computation against a storage state: its value and the queries
    it issued, in order. *)
Fixpoint run {A : Type} (db : Storage) (p : Prog A) : A * list Issued :=
  match p with
  | Ret a => (a, [])
  | Await q k => let r := run db (k (db _ q)) in (r.1, issued q :: r.2)
  end.

(** [getDataTimings] *)
Definition getDataTimings (c : DetailedTvlController) : Prog DataTimings :=
  counts ← await (FindCountsForHash (aggregatedConfigHash c));
  let syncedReportsAmount := matching counts in
  let unsyncedReportsAmount := different counts in
  latestTimestamp ← await FindLatestTimestamp;
  let isSynced := unsyncedReportsAmount =? 0 in
  let result :=
    {| syncedReportsAmount := syncedReportsAmount;
       unsyncedReportsAmount := unsyncedReportsAmount;
       isSynced := isSynced;
       latestTimestamp := latestTimestamp |} in
  mret result.

(** [getDetailedTvlApiResponse].  The four reads of [Promise.all] are started
    in the order of the array literal and awaited jointly. *)
Definition getDetailedTvlApiResponse (c : DetailedTvlController)
    : Prog (Result DetailedTvlApiResponse) :=
  dataTimings ← getDataTimings c;
  match latestTimestamp dataTimings with
  | None => mret (error NO_DATA)
  | Some latestTimestamp =>
    if negb (isSynced dataTimings) && errorOnUnsyncedDetailedTvl (options c)
    then mret (error DATA_NOT_FULLY_SYNCED)
    else
      hourlyReports ← await (GetHourlyWithAnyType (getHourlyMinTimestamp latestTimestamp));
      sixHourlyReports ←
        await (GetSixHourlyWithAnyType (getSixHourlyMinTimestamp latestTimestamp));
      dailyReports ← await GetDailyWithAnyType;
      latestReports ← await (ReportGetByTimestamp latestTimestamp);
      let allProjectIdsToSeekFor :=
        (ReportProject.projectId <$> projects c)
          ++ [ProjectId_ALL; ProjectId_BRIDGES; ProjectId_LAYER2S] in
      let filled :=
        fillAllMissingAggregatedReports allProjectIdsToSeekFor
          {| hourly := hourlyReports; sixHourly := sixHourlyReports; daily := dailyReports |}
          latestTimestamp in
      let groupedHourlyReports :=
        groupByProjectIdAndTimestamp (filledHourlyReports filled) in
      let groupedSixHourlyReportsTree :=
        groupByProjectIdAndTimestamp (filledSixHourlyReports filled) in
      let groupedDailyReports :=
        groupByProjectIdAndTimestamp (filledDailyReports filled) in
      let groupedLatestReports := groupByProjectIdAndAssetType latestReports in
      let tvlApiResponse :=
        generateDetailedTvlApiResponse groupedHourlyReports groupedSixHourlyReportsTree
          groupedDailyReports groupedLatestReports
          (ReportProject.projectId <$> projects c) in
      mret (success tvlApiResponse)
  end.

(** [getDetailedAssetTvlApiResponse] *)
Definition getDetailedAssetTvlApiResponse (c : DetailedTvlController)
    (projectId : ProjectId) (chainId : ChainId) (assetId : AssetId) (assetType : ReportType)
    : Prog (Result (TvlApiCharts ChartData)) :=
  let asset := List.find (fun t => bool_decide (Token.id t = assetId)) (tokens c) in
  let project :=
    List.find (fun p => bool_decide (ReportProject.projectId p = projectId)) (projects c) in
  match asset, project with
  | Some asset, Some project =>
    dataTimings ← getDataTimings c;
    match latestTimestamp dataTimings with
    | None => mret (error NO_DATA)
    | Some latestTimestamp =>
      if negb (isSynced dataTimings) && errorOnUnsyncedDetailedTvl (options c)
      then mret (error DATA_NOT_FULLY_SYNCED)
      else
        hourlyReports ←
          await (GetHourlyForDetailed projectId chainId assetId assetType
                   (getHourlyMinTimestamp latestTimestamp));
        sixHourlyReports ←
          await (GetSixHourlyForDetailed projectId chainId assetId assetType
                   (getSixHourlyMinTimestamp latestTimestamp));
        dailyReports ← await (GetDailyForDetailed projectId chainId assetId assetType);
        let assetSymbol := toLowerCase (Token.symbol asset) in
        let types := ("timestamp"%string, assetSymbol, "usd"%string) in
        let filled :=
          fillAllMissingAssetReports asset (ReportProject.projectId project)
            {| hourly := hourlyReports; sixHourly := sixHourlyReports; daily := dailyReports |}
            latestTimestamp in
        mret (success
          {| chartsHourly :=
               {| types := types;
                  data := getProjectAssetChartData (filledHourlyReports filled)
                            (Token.decimals asset) |};
             chartsSixHourly :=
               {| types := types;
                  data := getProjectAssetChartData (filledSixHourlyReports filled)
                            (Token.decimals asset) |};
             chartsDaily :=
               {| types := types;
                  data := getProjectAssetChartData (filledDailyReports filled)
                            (Token.decimals asset) |} |})
    end
  | _, _ => mret (error INVALID_PROJECT_OR_ASSET)
  end.

(** [getProjectTokenBreakdownApiResponse] *)
Definition getProjectTokenBreakdownApiResponse (c : DetailedTvlController)
    : Prog (Result (ProjectAssetsBreakdownApiResponse Breakdowns)) :=
  dataTimings ← getDataTimings c;
  match latestTimestamp dataTimings with
  | None => mret (error NO_DATA)
  | Some latestTimestamp =>
    if negb (isSynced dataTimings) && errorOnUnsyncedDetailedTvl (options c)
    then mret (error DATA_NOT_FULLY_SYNCED)
    else
      latestReports ← await (ReportGetByTimestamp latestTimestamp);
      balances ← await (BalanceGetByTimestamp latestTimestamp);
      prices ← await (PriceGetByTimestamp latestTimestamp);
      let externalAssetsBreakdown :=
        getNonCanonicalAssetsBreakdown latestReports (tokens c) EBV in
      let nativeAssetsBreakdown :=
        getNonCanonicalAssetsBreakdown latestReports (tokens c) NMV in
      let canonicalAssetsBreakdown :=
        getCanonicalAssetsBreakdown balances prices (projects c) in
      let breakdowns :=
        groupAndMergeBreakdowns (projects c)
          {| external := externalAssetsBreakdown;
             native := nativeAssetsBreakdown;
             canonical := canonicalAssetsBreakdown |} in
      mret (success {| dataTimestamp := latestTimestamp; breakdowns := breakdowns |})
  end.

End Controller.

(** "The requested assetId is in the known token list", "the requested
    projectId is in the configured project list". *)
Definition knownAsset (c : DetailedTvlController) (assetId : AssetId) : Prop :=
  assetId ∈ Token.id <$> tokens c.

Definition knownProject (c : DetailedTvlController) (projectId : ProjectId) : Prop :=
  projectId ∈ ReportProject.projectId <$> projects c.

#[export] Instance knownAsset_dec c assetId : Decision (knownAsset c assetId).
Proof. unfold knownAsset. apply _. Defined.

#[export] Instance knownProject_dec c projectId : Decision (knownProject c projectId).
Proof. unfold knownProject. apply _. Defined.

(** [String.prototype.toLowerCase] on ASCII text: the letters A to Z become
    a to z and every other character stays. *)
Definition lowerChar (c : Ascii.ascii) : Ascii.ascii :=
  let n := Ascii.N_of_ascii c in
  if (65 <=? n)%N && (n <=? 90)%N then Ascii.ascii_of_N (n + 32) else c.

Fixpoint asciiLowerCase (s : string) : string :=
  match s with
  | EmptyString => EmptyString
  | String c rest => String (lowerChar c) (asciiLowerCase rest)
  end.



(** ** Concrete collaborators for the examples *)

(** A storage state that holds the two status answers and no rows. *)
Definition statusOnly `{Helpers} (counts : Counts) (latest : option UnixTime) : Storage :=
  fun X q =>
    match q in Query X return X with
    | FindCountsForHash _ => counts
    | FindLatestTimestamp => latest
    | GetHourlyWithAnyType _ => []
    | GetSixHourlyWithAnyType _ => []
    | GetDailyWithAnyType => []
    | ReportGetByTimestamp _ => []
    | GetHourlyForDetailed _ _ _ _ _ => []
    | GetSixHourlyForDetailed _ _ _ _ _ => []
    | GetDailyForDetailed _ _ _ _ => []
    | BalanceGetByTimestamp _ => []
    | PriceGetByTimestamp _ => []
    end.

(** Imports whose helpers compute nothing: enough to run the guards of the
    controller, which never look at what the helpers return; the built-in
    [toLowerCase] lower-cases ASCII letters. *)
Definition unitHelpers : Helpers :=
  {| ReportRecord := unit;
     AggregatedReportRecord := unit;
     BalanceRecord := unit;
     PriceRecord := unit;
     FilledAggregated := unit;
     GroupedByTimestamp := unit;
     GroupedByAsset := unit;
     DetailedTvlApiResponse := unit;
     FilledAsset := unit;
     ChartData := unit;
     NonCanonicalBreakdown := unit;
     CanonicalBreakdown := unit;
     Breakdowns := unit;
     ProjectId_ALL := "l2beat-all";
     ProjectId_BRIDGES := "l2beat-bridges";
     ProjectId_LAYER2S := "l2beat-layer2s";
     toLowerCase := asciiLowerCase;
     getHourlyMinTimestamp := fun t => t - 7 * 86400;
     getSixHourlyMinTimestamp := fun t => t - 90 * 86400;
     fillAllMissingAggregatedReports := fun _ _ _ =>
       {| filledHourlyReports := tt; filledSixHourlyReports := tt; filledDailyReports := tt |};
     fillAllMissingAssetReports := fun _ _ _ _ =>
       {| filledHourlyReports := tt; filledSixHourlyReports := tt; filledDailyReports := tt |};
     groupByProjectIdAndTimestamp := fun _ => tt;
     groupByProjectIdAndAssetType := fun _ => tt;
     generateDetailedTvlApiResponse := fun _ _ _ _ _ => tt;
     getProjectAssetChartData := fun _ _ => tt;
     getNonCanonicalAssetsBreakdown := fun _ _ _ => tt;
     getCanonicalAssetsBreakdown := fun _ _ _ => tt;
     groupAndMergeBreakdowns := fun _ _ => tt |}.

(** A controller over one project and one token. *)
Definition sampleController (strict : bool) : DetailedTvlController :=
  {| projects := [ {| ReportProject.projectId := "arbitrum" |} ];
     tokens := [ {| Token.id := "usdc-usd-coin"; Token.symbol := "USDC"; Token.decimals := 6 |} ];
     aggregatedConfigHash := "0xabc";
     options := {| errorOnUnsyncedDetailedTvl := strict |} |}.

(** Sample rows and configuration. *)
Definition aggregated (p : ProjectId) (ty : ReportType) (t usd : Z) : AggregatedReport.t :=
  {| AggregatedReport.projectId := p; AggregatedReport.valueType := ty;
     AggregatedReport.timestamp := t; AggregatedReport.valueUsd := usd |}.

(** Hourly and six-hourly steps with short windows, daily from genesis 0. *)
Definition sampleConfig : GapFiller.Config :=
  {| GapFiller.step := fun r =>
       match r with
       | GapFiller.Hourly => 3600
       | GapFiller.SixHourly => 21600
       | GapFiller.Daily => 86400
       end%positive;
     GapFiller.hourlyWindow := 7200;
     GapFiller.sixHourlyWindow := 43200;
     GapFiller.genesis := 0 |}.

(** Scenario A counts in hours: step 1, a window reaching two hours back. *)
Definition scenarioA_config : GapFiller.Config :=
  {| GapFiller.step := fun _ => 1%positive;
     GapFiller.hourlyWindow := 2;
     GapFiller.sixHourlyWindow := 2;
     GapFiller.genesis := 0 |}.

Definition sampleAggregated : ByResolution (list AggregatedReport.t) :=
  {| hourly := [aggregated "P" CBV 255600 50];
     sixHourly := [];
     daily := [aggregated "P" CBV 86400 30; aggregated "P" EBV 86400 20;
               aggregated "Q" CBV 172800 7] |}.

Definition report (p : ProjectId) (a : AssetId) (ty : ReportType) (t amount usd : Z) : Report.t :=
  {| Report.projectId := p; Report.chainId := 1; Report.assetId := a; Report.valueType := ty;
     Report.timestamp := t; Report.valueAsset := amount; Report.valueUsd := usd |}.

(** Scenario B: the same asset reported under two value types. *)
Definition scenarioB : list Report.t :=
  [report "P" "A" CBV 1000 3 30; report "P" "A" EBV 1000 2 20].

(** Scenario E: project P is listed by the native source only; Q by none. *)
Definition scenarioE_projects : list ReportProject.t :=
  [ {| ReportProject.projectId := "P" |}; {| ReportProject.projectId := "Q" |} ].

Definition scenarioE_sources
    : BreakdownSources (gmap ProjectId (list BreakdownMerger.BreakdownEntry))
                       (gmap ProjectId (list BreakdownMerger.BreakdownEntry)) :=
  {| external := {[ "X" := [ {| BreakdownMerger.entryAssetId := "dai";
                                BreakdownMerger.amount := 1;
                                BreakdownMerger.usdValue := 1 |} ] ]};
     native := {[ "P" := [ {| BreakdownMerger.entryAssetId := "arb";
                              BreakdownMerger.amount := 10;
                              BreakdownMerger.usdValue := 12 |} ] ]};
     canonical := ∅ |}.

(** Filled series that mention a project "ghost" which is not requested. *)
Definition ghostSeries : gmap ProjectId (list GapFiller.SeriesEntry) :=
  {[ "ghost" := [ {| GapFiller.entryTimestamp := 1000; GapFiller.assetAmount := 0;
                     GapFiller.usdValue := 50 |} ];
     "P" := [ {| GapFiller.entryTimestamp := 1000; GapFiller.assetAmount := 0;
                 GapFiller.usdValue := 7 |} ] ]}.

Definition ghostLatest : gmap ProjectId (gmap AssetId (list Report.t)) :=
  Grouper.groupByProjectIdAndAssetType
    [ {| Report.projectId := "ghost"; Report.chainId := 1; Report.assetId := "A";
         Report.valueType := CBV; Report.timestamp := 1000; Report.valueAsset := 1;
         Report.valueUsd := 50 |} ].

(** ** CachedDataRepository *)

(** [CachedDataRepository] (first document of the file).  The table
    [cached_data] is keyed by its [id] column (the conflict target of
    [saveData]), so it is a finite map from ids to rows; knex's
    [where({ id }).first()] is a lookup, [insert(...).onConflict(['id'])
    .merge()] writes the given row over whatever the id held, and [delete()]
    without a filter removes every row and resolves to their number.  The
    [wrapFind]/[wrapAdd]/[wrapDelete] decorators of [BaseRepository] are not
    part of the sources and only add logging. *)
Module CachedDataRepository.

(** [const id = 0 // only one row should exist] *)
Definition id : Z := 0.

Section Repository.
Context {ReportOutput : Type}.

Record Row : Type := { unix_timestamp : string; data : ReportOutput }.

(** [getData]: [row?.data] of the row with the fixed id. *)
Definition getData (table : gmap Z Row) : option ReportOutput :=
  data <$> table !! id.

(** [saveData], at the time [now] that [UnixTime.now()] returns: the new
    table and the returned id. *)
Definition saveData (now : UnixTime) (d : ReportOutput) (table : gmap Z Row)
    : gmap Z Row * Z :=
  (<[id := {| unix_timestamp := pretty now; data := d |}]> table, id).

(** [deleteAll]: the new table and the number of deleted rows. *)
Definition deleteAll (table : gmap Z Row) : gmap Z Row * nat :=
  (∅, size table).

(** A call that changes the table, to speak about sequences of calls. *)
Inductive Update : Type :=
| SaveData (now : UnixTime) (d : ReportOutput)
| DeleteAll.

Definition applyUpdate (table : gmap Z Row) (u : Update) : gmap Z Row :=
  match u with
  | SaveData now d => (saveData now d table).1
  | DeleteAll => (deleteAll table).1
  end.

(** The cache seen as one cell: what each call leaves in it. *)
Definition cell (o : option ReportOutput) (u : Update) : option ReportOutput :=
  match u with
  | SaveData _ d => Some d
  | DeleteAll => None
  end.

End Repository.
End CachedDataRepository.

(** ** The Kroma proposer script *)

(** The script of the third document of the file.  Its calls to the
    contracts, to the helpers [getLogsInBatches] and [sleep] of [./utils]
    and to [Date.now] are events answered by the environment; the loops
    that wait for the chain take a bound on their number of turns.
    Console output is not modelled. *)
Module Kroma.

Inductive KromaNetwork : Type := mainnet | sepolia.

Definition KROMA_NETWORK : KromaNetwork := sepolia.

(** [ethers.utils.parseEther('0.2')] and [parseEther('0.1')], in wei. *)
Definition PROPOSER_DEPOSIT (network : KromaNetwork) : Z :=
  match network with
  | mainnet => 200000000000000000
  | sepolia => 100000000000000000
  end.

Definition EARLIEST_BLOCK : Z := 4775729.
Definition GET_LOGS_MAX_RANGE : Z := 10000.
Definition VALIDATOR_PUBLIC_ROUND_ADDRESS : string :=
  "0xFFfFfFffFFfffFFfFFfFFFFFffFFFffffFfFFFfF".

(** An [ethers.Event]: its decoded arguments may be missing ([args?]). *)
Record Event (Args : Type) : Type := { args : option Args }.
Arguments args {Args} _.

Record BondedArgs : Type := { outputIndex : Z }.
Record ChallengeCreatedArgs : Type := { challenger : string }.
Record Block : Type := { number : Z; hash : string }.
Record L2Output : Type := { outputRoot : string }.

(** What the script asks of its environment, indexed by the answer. *)
Inductive Call : Type -> Type :=
| GetBondedLogs (addr : string) (maxRange fromBlock : Z) : Call (list (Event BondedArgs))
| GetChallengeCreatedLogs (index : Z) (maxRange fromBlock : Z)
    : Call (list (Event ChallengeCreatedArgs))
| IsValidator (addr : string) : Call bool
| Deposit (value : Z) : Call unit
| NextValidator : Call string
| Sleep (ms : Z) : Call unit
| NextBlockNumber : Call Z
| GetBlockLatest : Call Block
| ComputeL2Timestamp (l2Block : Z) : Call N
| DateNow : Call Z
| SubmitL2Output (root : string) (l2Block : Z) (blockHash : string) (blockNumber : Z)
    : Call unit
| TxWait : Call unit
| GetL2Output (index : Z) : Call L2Output
| GetSegmentsLength (turn : Z) : Call N
| CreateChallenge (index : Z) (blockHash : string) (blockNumber : Z)
    (segments : list string) : Call unit.

Inductive Failure : Type :=
| Error (message : string)
| TypeError
| RangeError
| NumericFault.

(** A run of script code: it returns, throws, exits the process, awaits an
    answer, or is cut off by the bound of a waiting loop. *)
Inductive Script (A : Type) : Type :=
| Return (a : A)
| Throw (e : Failure)
| Exit (code : Z)
| Unfinished
| Do {X : Type} (call : Call X) (k : X -> Script A).
Arguments Return {A} a.
Arguments Throw {A} e.
Arguments Exit {A} code.
Arguments Unfinished {A}.
Arguments Do {A X} call k.

Fixpoint Script_bind {A B : Type} (k : A -> Script B) (s : Script A) : Script B :=
  match s with
  | Return a => k a
  | Throw e => Throw e
  | Exit code => Exit code
  | Unfinished => Unfinished
  | Do call k' => Do call (fun x => Script_bind k (k' x))
  end.

#[export] Instance Script_ret : MRet Script := fun A a => Return a.
#[export] Instance Script_mbind : MBind Script := fun A B k s => Script_bind k s.

Definition ask {X : Type} (call : Call X) : Script X := Do call Return.

Inductive Outcome (A : Type) : Type :=
| returned (a : A)
| threw (e : Failure)
| exited (code : Z)
| unfinished.
Arguments returned {A} a.
Arguments threw {A} e.
Arguments exited {A} code.
Arguments unfinished {A}.

(** A call together with the answer it got. *)
Inductive Answered : Type :=
| answered {X : Type} (call : Call X) (answer : X).

Section Run.
Context {World : Type} (respond : forall X : Type, Call X -> World -> X * World).

(** Running a script in a world that answers every call and moves on: the
    outcome, the answered calls in order, the world left behind. *)
Fixpoint run {A : Type} (s : Script A) (w : World) : Outcome A * list Answered * World :=
  match s with
  | Return a => (returned a, [], w)
  | Throw e => (threw e, [], w)
  | Exit code => (exited code, [], w)
  | Unfinished => (unfinished, [], w)
  | Do call k =>
    let '(x, w') := respond _ call w in
    let '(o, tr, w'') := run (k x) w' in
    (o, answered call x :: tr, w'')
  end.

End Run.

Inductive NextStep : Type := continue | stop.

Section Proposer.
(** [process.env.MY_ADDRESS] and [ethers.utils.hexZeroPad]. *)
Context (myAddr : string) (hexZeroPad : string -> Z -> string).

(** [getProposedOutputIndex] *)
Definition getProposedOutputIndex : Script (option Z) :=
  myBondedEvents ← ask (GetBondedLogs myAddr GET_LOGS_MAX_RANGE EARLIEST_BLOCK);
  if (1 <? length (myBondedEvents : list (Event BondedArgs)))%nat
  then Throw (Error "Making multiple proposals is currently not supported by this script")
  else
    match myBondedEvents !! 0%nat with
    | None => mret None
    | Some event =>
      match args event with
      | None => Throw TypeError
      | Some a => mret (Some (outputIndex a))
      end
    end.

(** [handleChallenge]: its body only writes to the console. *)
Definition handleChallenge (index : Z) (challenger : string) : Script unit :=
  mret tt.

(** The [for ... of] loop of [handleChallenges]. *)
Fixpoint forEachChallenge (index : Z) (challenges : list (Event ChallengeCreatedArgs))
    : Script unit :=
  match challenges with
  | [] => mret tt
  | challenge :: rest =>
    match args challenge with
    | None => Throw TypeError
    | Some a => handleChallenge index (challenger a);; forEachChallenge index rest
    end
  end.

(** [handleChallenges] *)
Definition handleChallenges (index : Z) : Script unit :=
  challenges ← ask (GetChallengeCreatedLogs index GET_LOGS_MAX_RANGE EARLIEST_BLOCK);
  forEachChallenge index challenges.

(** [addMyselfToProposerList] *)
Definition addMyselfToProposerList : Script unit :=
  isValidator ← ask (IsValidator myAddr);
  if (isValidator : bool) then mret tt
  else
    let value := PROPOSER_DEPOSIT KROMA_NETWORK in
    ask (Deposit value);;
    isValidator' ← ask (IsValidator myAddr);
    if negb (isValidator' : bool)
    then Throw (Error "Failed to add myself to proposer list")
    else mret tt.

(** The test of the waiting loop: [proposer !== myAddr && proposer !==
    VALIDATOR_PUBLIC_ROUND_ADDRESS], on strings. *)
Definition mustWait (proposer : string) : bool :=
  negb (bool_decide (proposer = myAddr))
  && negb (bool_decide (proposer = VALIDATOR_PUBLIC_ROUND_ADDRESS)).

(** The [while] loop of [waitToBecomeProposerOrPublicRound], at most
    [turns] turns. *)
Fixpoint waitForTurn (turns : nat) (proposer : string) : Script unit :=
  if mustWait proposer
  then
    match turns with
    | O => Unfinished
    | S turns' =>
      ask (Sleep (10 * 1000));;
      proposer' ← ask NextValidator;
      waitForTurn turns' proposer'
    end
  else mret tt.

(** [waitToBecomeProposerOrPublicRound] *)
Definition waitToBecomeProposerOrPublicRound (turns : nat) : Script unit :=
  proposer ← ask NextValidator;
  waitForTurn turns proposer.

(** The [while] loop of [submitOutputRoot].  [Date.now()] is a whole number
    of milliseconds in the range of valid dates, where the double division
    of [Date.now() / 1000 < waitUntil] keeps the comparison exact; the second
    [Date.now()] of each turn is the one in the message it prints. *)
Fixpoint waitForTimestamp (turns : nat) (waitUntil : Z) : Script unit :=
  now ← ask DateNow;
  if (now : Z) <? 1000 * waitUntil
  then
    match turns with
    | O => Unfinished
    | S turns' =>
      ask DateNow;;
      ask (Sleep (1 * 1000));;
      waitForTimestamp turns' waitUntil
    end
  else mret tt.

(** [submitOutputRoot].  [expectedTimestamp.toNumber()] fails above 53
    bits. *)
Definition submitOutputRoot (turns : nat) : Script unit :=
  nextL2BlockNumber ← ask NextBlockNumber;
  block ← ask GetBlockLatest;
  let blockNumber := number block in
  let blockHash := hash block in
  expectedTimestamp ← ask (ComputeL2Timestamp nextL2BlockNumber);
  if (2 ^ 53 <=? (expectedTimestamp : N))%N then Throw NumericFault
  else
  let waitUntil := Z.of_N expectedTimestamp + 1 in
  waitForTimestamp turns waitUntil;;
  let dummyOutputRoot := hexZeroPad "0x1234567890" 32 in
  ask (SubmitL2Output dummyOutputRoot nextL2BlockNumber blockHash blockNumber);;
  ask TxWait.

(** [proposeRoot] *)
Definition proposeRoot (turns : nat) : Script unit :=
  addMyselfToProposerList;;
  waitToBecomeProposerOrPublicRound turns;;
  submitOutputRoot turns.

(** [performNextAction] *)
Definition performNextAction (turns : nat) : Script NextStep :=
  proposedOutputIndex ← getProposedOutputIndex;
  match proposedOutputIndex with
  | None => proposeRoot turns;; mret continue
  | Some index => handleChallenges index;; mret stop
  end.

(** [segments[0] = value] on a JavaScript array: an empty array grows. *)
Definition setFirst (value : string) (segments : list string) : list string :=
  match segments with
  | [] => [value]
  | _ :: rest => value :: rest
  end.

(** The segments of [simulateChallenge]:
    [Array(n).fill('0x0').map((x) => hexZeroPad(x, 32))] with the output root
    written at index 0. *)
Definition challengeSegments (requiredSegmentsLength : nat) (root : string) : list string :=
  setFirst root ((fun x => hexZeroPad x 32) <$> replicate requiredSegmentsLength "0x0"%string).

(** [simulateChallenge].  [toNumber()] fails above 53 bits and [Array(n)]
    above 32 bits. *)
Definition simulateChallenge (index : Z) : Script unit :=
  block ← ask GetBlockLatest;
  let blockNumber := number block in
  let blockHash := hash block in
  output ← ask (GetL2Output (index - 1));
  segmentsLength ← ask (GetSegmentsLength 1);
  if (2 ^ 53 <=? (segmentsLength : N))%N then Throw NumericFault
  else if (2 ^ 32 <=? segmentsLength)%N then Throw RangeError
  else
    let segments := challengeSegments (N.to_nat segmentsLength) (outputRoot output) in
    ask (CreateChallenge index blockHash blockNumber segments);;
    ask TxWait;;
    Exit 0.

End Proposer.

(** The calls of a finished wait for the turn, from the answers of
    [nextValidator()]: ten seconds of sleep before every poll but the
    first. *)
Definition pollsTrace (answers : list string) : list Answered :=
  match answers with
  | [] => []
  | first :: rest =>
    answered NextValidator first
      :: flat_map (fun a => [answered (Sleep 10000) tt; answered NextValidator a]) rest
  end.

(** The calls of the turns of the clock loop, from the two clock reads of
    each turn. *)
Definition clockTrace (reads : list (Z * Z)) : list Answered :=
  flat_map (fun r => [answered DateNow r.1; answered DateNow r.2; answered (Sleep 1000) tt])
           reads.

(** The value of a deposit, for a call that is one. *)
Definition depositValue (a : Answered) : option Z :=
  match a with
  | answered (Deposit value) _ => Some value
  | _ => None
  end.

Definition isSubmit (a : Answered) : bool :=
  match a with
  | answered (SubmitL2Output _ _ _ _) _ => true
  | _ => false
  end.

(** Calls that neither deposit nor submit. *)
Definition quietCall (a : Answered) : Prop := depositValue a = None /\ isSubmit a = false.

(** A toy chain for the examples: the answers [nextValidator()] will give,
    a clock that only [sleep] moves, the validator flag that a deposit
    sets, and the Bonded events on record. *)
Record ToyChain : Type :=
  { upcoming : list string;
    clock : Z;
    validator : bool;
    bonded : list (Event BondedArgs) }.

Definition toyRespond (X : Type) (call : Call X) (w : ToyChain) : X * ToyChain :=
  match call in Call X return X * ToyChain with
  | GetBondedLogs _ _ _ => (bonded w, w)
  | GetChallengeCreatedLogs _ _ _ => ([], w)
  | IsValidator _ => (validator w, w)
  | Deposit _ =>
    (tt, {| upcoming := upcoming w; clock := clock w; validator := true; bonded := bonded w |})
  | NextValidator =>
    (default VALIDATOR_PUBLIC_ROUND_ADDRESS (head (upcoming w)),
     {| upcoming := tail (upcoming w); clock := clock w; validator := validator w;
        bonded := bonded w |})
  | Sleep ms =>
    (tt, {| upcoming := upcoming w; clock := clock w + ms; validator := validator w;
            bonded := bonded w |})
  | NextBlockNumber => (1800, w)
  | GetBlockLatest => ({| number := 5000000; hash := "0xb10c" |}, w)
  | ComputeL2Timestamp _ => (1700000000%N, w)
  | DateNow => (clock w, w)
  | SubmitL2Output _ _ _ _ => (tt, w)
  | TxWait => (tt, w)
  | GetL2Output _ => ({| outputRoot := "0x0007" |}, w)
  | GetSegmentsLength _ => (0%N, w)
  | CreateChallenge _ _ _ _ => (tt, w)
  end.

(** Not yet a validator, two other proposers ahead, one second early. *)
Definition toyStart : ToyChain :=
  {| upcoming := ["0xA1"; "0xA2"; "0xMe"];
     clock := 1699999980000;
     validator := false;
     bonded := [] |}.

End Kroma.

(** ** Properties of the controller *)

Section ControllerFacts.
Context `{Helpers}.
Implicit Types (c : DetailedTvlController) (db : Storage).

Lemma run_getDataTimings db c :
  run db (getDataTimings c) =
  ({| syncedReportsAmount := matching (db _ (FindCountsForHash (aggregatedConfigHash c)));
      unsyncedReportsAmount := different (db _ (FindCountsForHash (aggregatedConfigHash c)));
      isSynced := different (db _ (FindCountsForHash (aggregatedConfigHash c))) =? 0;
      latestTimestamp := db _ FindLatestTimestamp |},
   [issued (FindCountsForHash (aggregatedConfigHash c)); issued FindLatestTimestamp]).
Proof. reflexivity. Qed.

(** [Array.prototype.find] on a key finds something exactly when the key
    occurs in the list. *)
Lemma find_is_Some {A : Type} (f : A -> string) (x : string) (l : list A) :
  x ∈ f <$> l <-> is_Some (List.find (fun a => bool_decide (f a = x)) l).
Proof.
  induction l as [|a l IH]; simpl.
  - split; [intros Hin; inversion Hin | intros [? ?]; discriminate].
  - destruct (bool_decide_reflect (f a = x)) as [Heq|Hne].
    + split; [eauto | intros _; rewrite Heq; apply list_elem_of_here].
    + rewrite <- IH. split.
      * intros Hin. inversion Hin; subst; [congruence | assumption].
      * intros Hin. by apply list_elem_of_further.
Qed.

Lemma find_None_unknown {A : Type} (f : A -> string) (x : string) (l : list A) :
  x ∉ f <$> l -> List.find (fun a => bool_decide (f a = x)) l = None.
Proof.
  intros Hnot. destruct (List.find _ l) eqn:E; [|done].
  exfalso. apply Hnot. apply find_is_Some. rewrite E. eauto.
Qed.

(** C1: for every configuration fingerprint and every state of the storage
    layer, the resolved sync status has [isSynced = true] if and only if the
    count of aggregated rows whose fingerprint differs from the current one
    is zero; the matching count plays no part. *)
Theorem isSynced_iff_no_mismatch db c :
  isSynced (run db (getDataTimings c)).1 = true
  <-> different (db _ (FindCountsForHash (aggregatedConfigHash c))) = 0.
Proof. rewrite run_getDataTimings. simpl. apply Z.eqb_eq. Qed.

(** C2 (amended): the sync flag is computed from the mismatch count alone.
    When the storage layer reports no latest timestamp, the resolution
    returns [latestTimestamp = undefined] and [isSynced] is true exactly when
    the mismatch count is zero; in particular with no rows at all (mismatch
    count zero) it is [true]. *)
Theorem timings_without_latest db c :
  db _ FindLatestTimestamp = None ->
  latestTimestamp (run db (getDataTimings c)).1 = None
  /\ (isSynced (run db (getDataTimings c)).1 = true
      <-> different (db _ (FindCountsForHash (aggregatedConfigHash c))) = 0)
  /\ (different (db _ (FindCountsForHash (aggregatedConfigHash c))) = 0 ->
      isSynced (run db (getDataTimings c)).1 = true).
Proof.
  intros Hlatest. rewrite run_getDataTimings. simpl.
  split; [assumption|]. split; [apply Z.eqb_eq|]. intros ->. reflexivity.
Qed.

End ControllerFacts.

(** C2, as stated, fails: with no aggregated row at all (both counts zero, no
    latest timestamp) the resolution returns [isSynced = true] next to an
    undefined [latestTimestamp]. *)
Lemma isSynced_true_without_latest :
  (run (statusOnly {| matching := 0; different := 0 |} None)
       (getDataTimings (H := unitHelpers) (sampleController true))).1
  = {| syncedReportsAmount := 0; unsyncedReportsAmount := 0;
       isSynced := true; latestTimestamp := None |}.
Proof. reflexivity. Qed.

Lemma timings_without_latest_witness :
  latestTimestamp
    (run (statusOnly {| matching := 0; different := 0 |} None)
         (getDataTimings (H := unitHelpers) (sampleController true))).1 = None
  /\ isSynced
       (run (statusOnly {| matching := 0; different := 0 |} None)
            (getDataTimings (H := unitHelpers) (sampleController true))).1 = true.
Proof.
  destruct (timings_without_latest (H := unitHelpers)
              (statusOnly {| matching := 0; different := 0 |} None)
              (sampleController true) eq_refl) as (Hl & _ & Hs).
  split; [exact Hl | apply Hs; reflexivity].
Defined.

Section ControllerGuards.
Context `{Helpers}.
Implicit Types (c : DetailedTvlController) (db : Storage).

(** The outcome of [getDetailedTvlApiResponse], guard by guard. *)
Lemma getDetailedTvlApiResponse_cases db c :
  match db _ FindLatestTimestamp with
  | None => (run db (getDetailedTvlApiResponse c)).1 = error NO_DATA
  | Some _ =>
    if negb (different (db _ (FindCountsForHash (aggregatedConfigHash c))) =? 0)
       && errorOnUnsyncedDetailedTvl (options c)
    then (run db (getDetailedTvlApiResponse c)).1 = error DATA_NOT_FULLY_SYNCED
    else exists d, (run db (getDetailedTvlApiResponse c)).1 = success d
  end.
Proof.
  unfold getDetailedTvlApiResponse, getDataTimings. cbn.
  destruct (db _ FindLatestTimestamp) as [ts|]; cbn; [|reflexivity].
  destruct (negb _ && _); cbn; [reflexivity | eauto].
Qed.

(** The outcome of [getProjectTokenBreakdownApiResponse], guard by guard. *)
Lemma getProjectTokenBreakdownApiResponse_cases db c :
  match db _ FindLatestTimestamp with
  | None => (run db (getProjectTokenBreakdownApiResponse c)).1 = error NO_DATA
  | Some _ =>
    if negb (different (db _ (FindCountsForHash (aggregatedConfigHash c))) =? 0)
       && errorOnUnsyncedDetailedTvl (options c)
    then (run db (getProjectTokenBreakdownApiResponse c)).1 = error DATA_NOT_FULLY_SYNCED
    else exists d, (run db (getProjectTokenBreakdownApiResponse c)).1 = success d
  end.
Proof.
  unfold getProjectTokenBreakdownApiResponse, getDataTimings. cbn.
  destruct (db _ FindLatestTimestamp) as [ts|]; cbn; [|reflexivity].
  destruct (negb _ && _); cbn; [reflexivity | eauto].
Qed.

(** The success path of [getDetailedTvlApiResponse]: the four reads in the
    order they are started, the fill step seeking the configured ids and the
    three synthetic ones, the generator given the configured ids only. *)
Lemma getDetailedTvlApiResponse_success db c ts :
  db _ FindLatestTimestamp = Some ts ->
  negb (different (db _ (FindCountsForHash (aggregatedConfigHash c))) =? 0)
    && errorOnUnsyncedDetailedTvl (options c) = false ->
  let filled :=
    fillAllMissingAggregatedReports
      ((ReportProject.projectId <$> projects c)
         ++ [ProjectId_ALL; ProjectId_BRIDGES; ProjectId_LAYER2S])
      {| hourly := db _ (GetHourlyWithAnyType (getHourlyMinTimestamp ts));
         sixHourly := db _ (GetSixHourlyWithAnyType (getSixHourlyMinTimestamp ts));
         daily := db _ GetDailyWithAnyType |}
      ts in
  run db (getDetailedTvlApiResponse c)
  = (success
       (generateDetailedTvlApiResponse
          (groupByProjectIdAndTimestamp (filledHourlyReports filled))
          (groupByProjectIdAndTimestamp (filledSixHourlyReports filled))
          (groupByProjectIdAndTimestamp (filledDailyReports filled))
          (groupByProjectIdAndAssetType (db _ (ReportGetByTimestamp ts)))
          (ReportProject.projectId <$> projects c)),
     [issued (FindCountsForHash (aggregatedConfigHash c));
      issued FindLatestTimestamp;
      issued (GetHourlyWithAnyType (getHourlyMinTimestamp ts));
      issued (GetSixHourlyWithAnyType (getSixHourlyMinTimestamp ts));
      issued GetDailyWithAnyType;
      issued (ReportGetByTimestamp ts)]).
Proof.
  intros Hlatest Hgate. unfold getDetailedTvlApiResponse, getDataTimings. cbn.
  rewrite Hlatest. cbn. rewrite Hgate. reflexivity.
Qed.

(** Validation comes first in [getDetailedAssetTvlApiResponse]: an unknown
    asset or project ends the call before anything is awaited. *)
Lemma getDetailedAssetTvlApiResponse_invalid c projectId chainId assetId assetType :
  ~ knownAsset c assetId \/ ~ knownProject c projectId ->
  getDetailedAssetTvlApiResponse c projectId chainId assetId assetType
  = Ret (error INVALID_PROJECT_OR_ASSET).
Proof.
  unfold knownAsset, knownProject, getDetailedAssetTvlApiResponse.
  intros [Hbad|Hbad]; rewrite (find_None_unknown _ _ _ Hbad).
  - reflexivity.
  - by destruct (List.find _ (tokens c)).
Qed.

(** The outcome of [getDetailedAssetTvlApiResponse] once validation passed,
    guard by guard, with the queries it issued. *)
Lemma getDetailedAssetTvlApiResponse_cases db c projectId chainId assetId assetType :
  knownAsset c assetId -> knownProject c projectId ->
  let r := run db (getDetailedAssetTvlApiResponse c projectId chainId assetId assetType) in
  let timingQueries :=
    [issued (FindCountsForHash (aggregatedConfigHash c)); issued FindLatestTimestamp] in
  match db _ FindLatestTimestamp with
  | None => r = (error NO_DATA, timingQueries)
  | Some ts =>
    if negb (different (db _ (FindCountsForHash (aggregatedConfigHash c))) =? 0)
       && errorOnUnsyncedDetailedTvl (options c)
    then r = (error DATA_NOT_FULLY_SYNCED, timingQueries)
    else (exists d, r.1 = success d)
         /\ r.2 = timingQueries ++
              [issued (GetHourlyForDetailed projectId chainId assetId assetType
                         (getHourlyMinTimestamp ts));
               issued (GetSixHourlyForDetailed projectId chainId assetId assetType
                         (getSixHourlyMinTimestamp ts));
               issued (GetDailyForDetailed projectId chainId assetId assetType)]
  end.
Proof.
  unfold knownAsset, knownProject. intros Ha Hp.
  apply find_is_Some in Ha as [asset Ha]. apply find_is_Some in Hp as [project Hp].
  unfold getDetailedAssetTvlApiResponse. rewrite Ha, Hp.
  unfold getDataTimings. cbn.
  destruct (db _ FindLatestTimestamp) as [ts|]; cbn; [|reflexivity].
  destruct (negb _ && _); cbn; [reflexivity | eauto].
Qed.

(** C5 (amended): in each of the three public operations, once the earlier
    guards are passed (a latest timestamp exists and, for
    [getDetailedAssetTvlApiResponse], the asset and the project are known),
    unsynced data with [errorOnUnsyncedDetailedTvl = true] gives
    [DATA_NOT_FULLY_SYNCED]; with [errorOnUnsyncedDetailedTvl = false] and
    the same guards passed the operation succeeds, synced or not. *)
Theorem unsynced_gate db c ts :
  db _ FindLatestTimestamp = Some ts ->
  (isSynced (run db (getDataTimings c)).1 = false ->
   errorOnUnsyncedDetailedTvl (options c) = true ->
   (run db (getDetailedTvlApiResponse c)).1 = error DATA_NOT_FULLY_SYNCED
   /\ (run db (getProjectTokenBreakdownApiResponse c)).1 = error DATA_NOT_FULLY_SYNCED
   /\ forall projectId chainId assetId assetType,
        knownAsset c assetId -> knownProject c projectId ->
        (run db (getDetailedAssetTvlApiResponse c projectId chainId assetId assetType)).1
        = error DATA_NOT_FULLY_SYNCED)
  /\ (errorOnUnsyncedDetailedTvl (options c) = false ->
      (exists d, (run db (getDetailedTvlApiResponse c)).1 = success d)
      /\ (exists d, (run db (getProjectTokenBreakdownApiResponse c)).1 = success d)
      /\ forall projectId chainId assetId assetType,
           knownAsset c assetId -> knownProject c projectId ->
           exists d,
             (run db (getDetailedAssetTvlApiResponse c projectId chainId assetId assetType)).1
             = success d).
Proof.
  intros Hlatest.
  pose proof (getDetailedTvlApiResponse_cases db c) as Htvl.
  pose proof (getProjectTokenBreakdownApiResponse_cases db c) as Hbr.
  pose proof (getDetailedAssetTvlApiResponse_cases db c) as Hasset.
  rewrite run_getDataTimings. simpl isSynced.
  rewrite Hlatest in Htvl, Hbr. split.
  - intros Hunsynced Hflag. rewrite Hunsynced, Hflag in Htvl, Hbr. simpl in Htvl, Hbr.
    repeat split; [assumption..|].
    intros projectId chainId assetId assetType Ha Hp.
    specialize (Hasset projectId chainId assetId assetType Ha Hp).
    cbv zeta in Hasset. rewrite Hlatest, Hunsynced, Hflag in Hasset. simpl in Hasset.
    by rewrite Hasset.
  - intros Hflag. rewrite Hflag, andb_false_r in Htvl, Hbr.
    repeat split; [assumption..|].
    intros projectId chainId assetId assetType Ha Hp.
    specialize (Hasset projectId chainId assetId assetType Ha Hp).
    cbv zeta in Hasset. rewrite Hlatest, Hflag, andb_false_r in Hasset.
    apply Hasset.
Qed.

(** C6: a call to [getDetailedAssetTvlApiResponse] whose assetId is not in
    the token list, or whose projectId is not in the project list, is the
    finished computation [INVALID_PROJECT_OR_ASSET]: run against any storage
    state it returns that error and has issued no query. *)
Theorem invalid_project_or_asset_before_storage c projectId chainId assetId assetType :
  ~ knownAsset c assetId \/ ~ knownProject c projectId ->
  getDetailedAssetTvlApiResponse c projectId chainId assetId assetType
  = Ret (error INVALID_PROJECT_OR_ASSET)
  /\ forall db,
       run db (getDetailedAssetTvlApiResponse c projectId chainId assetId assetType)
       = (error INVALID_PROJECT_OR_ASSET, []).
Proof.
  intros Hbad.
  rewrite (getDetailedAssetTvlApiResponse_invalid _ _ _ _ _ Hbad). by split.
Qed.

(** C9 (amended): in [getDetailedTvlApiResponse] and
    [getProjectTokenBreakdownApiResponse], and in
    [getDetailedAssetTvlApiResponse] once the asset and the project are
    known (its validation comes before both checks), the [NO_DATA] check
    comes before the sync check: whenever the latest timestamp is undefined
    the result is [NO_DATA], whatever the mismatch count and the
    [errorOnUnsyncedDetailedTvl] option are; and in all three operations a
    result [DATA_NOT_FULLY_SYNCED] is only returned when a latest timestamp
    exists. *)
Theorem no_data_precedes_sync_check db c :
  (db _ FindLatestTimestamp = None ->
   (run db (getDetailedTvlApiResponse c)).1 = error NO_DATA
   /\ (run db (getProjectTokenBreakdownApiResponse c)).1 = error NO_DATA
   /\ forall projectId chainId assetId assetType,
        knownAsset c assetId -> knownProject c projectId ->
        (run db (getDetailedAssetTvlApiResponse c projectId chainId assetId assetType)).1
        = error NO_DATA)
  /\ ((run db (getDetailedTvlApiResponse c)).1 = error DATA_NOT_FULLY_SYNCED
      \/ (run db (getProjectTokenBreakdownApiResponse c)).1 = error DATA_NOT_FULLY_SYNCED
      \/ (exists projectId chainId assetId assetType,
            (run db (getDetailedAssetTvlApiResponse c projectId chainId assetId assetType)).1
            = error DATA_NOT_FULLY_SYNCED) ->
      exists ts, db _ FindLatestTimestamp = Some ts).
Proof.
  pose proof (getDetailedTvlApiResponse_cases db c) as Htvl.
  pose proof (getProjectTokenBreakdownApiResponse_cases db c) as Hbr.
  pose proof (getDetailedAssetTvlApiResponse_cases db c) as Hasset.
  split.
  - intros Hlatest. rewrite Hlatest in Htvl, Hbr. repeat split; [assumption..|].
    intros projectId chainId assetId assetType Ha Hp.
    specialize (Hasset projectId chainId assetId assetType Ha Hp).
    cbv zeta in Hasset. rewrite Hlatest in Hasset. by rewrite Hasset.
  - destruct (db _ FindLatestTimestamp) as [ts|] eqn:Hlatest; [eauto|].
    intros [Hr|[Hr|(projectId & chainId & assetId & assetType & Hr)]]; exfalso.
    + congruence.
    + congruence.
    + destruct (decide (knownAsset c assetId)) as [Ha|Ha];
        [destruct (decide (knownProject c projectId)) as [Hp|Hp]|].
      * specialize (Hasset projectId chainId assetId assetType Ha Hp).
        cbv zeta in Hasset. rewrite Hasset in Hr. discriminate.
      * rewrite getDetailedAssetTvlApiResponse_invalid in Hr by auto. discriminate.
      * rewrite getDetailedAssetTvlApiResponse_invalid in Hr by auto. discriminate.
Qed.

(** C10: [getDetailedAssetTvlApiResponse] validates the assetId and the
    projectId only.  For every chainId and every assetType a call with a
    known project and asset is not the validation error: it resolves the
    timings first and, when a latest timestamp exists and the sync guard
    lets it through, issues the three series queries with the chainId and
    assetType it was given and succeeds. *)
Theorem chain_and_type_not_validated db c projectId chainId assetId assetType :
  knownAsset c assetId -> knownProject c projectId ->
  let r := run db (getDetailedAssetTvlApiResponse c projectId chainId assetId assetType) in
  r.1 <> error INVALID_PROJECT_OR_ASSET
  /\ take 2 r.2
     = [issued (FindCountsForHash (aggregatedConfigHash c)); issued FindLatestTimestamp]
  /\ forall ts,
       db _ FindLatestTimestamp = Some ts ->
       isSynced (run db (getDataTimings c)).1 = true
       \/ errorOnUnsyncedDetailedTvl (options c) = false ->
       (exists d, r.1 = success d)
       /\ r.2 = [issued (FindCountsForHash (aggregatedConfigHash c));
                 issued FindLatestTimestamp;
                 issued (GetHourlyForDetailed projectId chainId assetId assetType
                           (getHourlyMinTimestamp ts));
                 issued (GetSixHourlyForDetailed projectId chainId assetId assetType
                           (getSixHourlyMinTimestamp ts));
                 issued (GetDailyForDetailed projectId chainId assetId assetType)].
Proof.
  intros Ha Hp r.
  pose proof (getDetailedAssetTvlApiResponse_cases db c projectId chainId assetId assetType
                Ha Hp) as Hasset.
  cbv zeta in Hasset. fold r in Hasset.
  rewrite run_getDataTimings. simpl isSynced.
  destruct (db _ FindLatestTimestamp) as [ts|].
  - destruct (negb _ && _) eqn:Hgate.
    + rewrite Hasset. simpl. split; [done|]. split; [done|].
      intros ts' _ [Hs|Hf]; exfalso.
      * rewrite Hs in Hgate. discriminate.
      * rewrite Hf, andb_false_r in Hgate. discriminate.
    + destruct Hasset as [[d Hd] Htrace]. rewrite Hd, Htrace. simpl.
      split; [done|]. split; [done|].
      intros ts' [= <-] _. eauto.
  - rewrite Hasset. simpl. split; [done|]. split; [done|]. intros ts' [=].
Qed.

End ControllerGuards.

(** C5, as stated, fails: with unsynced data (two mismatching rows) and
    [errorOnUnsyncedDetailedTvl = true], a call of
    [getDetailedAssetTvlApiResponse] for an unknown asset answers
    [INVALID_PROJECT_OR_ASSET], and when the storage layer reports no latest
    timestamp every operation answers [NO_DATA]; neither is
    [DATA_NOT_FULLY_SYNCED]. *)
Lemma unsynced_strict_other_errors :
  let c := sampleController true in
  let db :=
    statusOnly (H := unitHelpers) {| matching := 5; different := 2 |} (Some 1700000000) in
  let db' := statusOnly (H := unitHelpers) {| matching := 5; different := 2 |} None in
  errorOnUnsyncedDetailedTvl (options c) = true
  /\ isSynced (run db (getDataTimings c)).1 = false
  /\ (run db (getDetailedAssetTvlApiResponse c "arbitrum" 42161 "dai" EBV)).1
     = error INVALID_PROJECT_OR_ASSET
  /\ isSynced (run db' (getDataTimings c)).1 = false
  /\ (run db' (getDetailedTvlApiResponse c)).1 = error NO_DATA
  /\ (run db' (getProjectTokenBreakdownApiResponse c)).1 = error NO_DATA
  /\ (run db' (getDetailedAssetTvlApiResponse c "arbitrum" 42161 "usdc-usd-coin" EBV)).1
     = error NO_DATA.
Proof. repeat split. Qed.

Lemma unsynced_gate_witness :
  let db :=
    statusOnly (H := unitHelpers) {| matching := 5; different := 2 |} (Some 1700000000) in
  let c := sampleController true in
  (run db (getDetailedTvlApiResponse c)).1 = error DATA_NOT_FULLY_SYNCED
  /\ (run db (getProjectTokenBreakdownApiResponse c)).1 = error DATA_NOT_FULLY_SYNCED
  /\ (run db (getDetailedAssetTvlApiResponse c "arbitrum" 42161 "usdc-usd-coin" EBV)).1
     = error DATA_NOT_FULLY_SYNCED.
Proof.
  intros db c.
  destruct (proj1 (unsynced_gate (H := unitHelpers) db c 1700000000 eq_refl)
              eq_refl eq_refl) as (Htvl & Hbr & Hasset).
  split; [exact Htvl|]. split; [exact Hbr|].
  apply Hasset; compute_done.
Defined.

Lemma invalid_project_or_asset_before_storage_witness :
  run (statusOnly (H := unitHelpers) {| matching := 5; different := 0 |} (Some 1700000000))
      (getDetailedAssetTvlApiResponse (sampleController true) "arbitrum" 42161 "dai" CBV)
  = (error INVALID_PROJECT_OR_ASSET, []).
Proof.
  apply (invalid_project_or_asset_before_storage (H := unitHelpers)
           (sampleController true) "arbitrum" 42161 "dai" CBV).
  left. compute_done.
Defined.

(** C9, as stated, fails for [getDetailedAssetTvlApiResponse]: with no latest
    timestamp and an asset that is not in the token list the result is
    [INVALID_PROJECT_OR_ASSET], not [NO_DATA]; the timings are never read. *)
Lemma no_latest_unknown_asset_is_invalid :
  let c := sampleController true in
  let db := statusOnly (H := unitHelpers) {| matching := 5; different := 2 |} None in
  db _ FindLatestTimestamp = None
  /\ run db (getDetailedAssetTvlApiResponse c "arbitrum" 42161 "dai" EBV)
     = (error INVALID_PROJECT_OR_ASSET, [])
  /\ (run db (getDetailedAssetTvlApiResponse c "arbitrum" 42161 "dai" EBV)).1
     <> error NO_DATA.
Proof. split; [reflexivity|]. split; [reflexivity|]. discriminate. Qed.

Lemma no_data_precedes_sync_check_witness :
  let db := statusOnly (H := unitHelpers) {| matching := 5; different := 2 |} None in
  (run db (getDetailedTvlApiResponse (sampleController true))).1 = error NO_DATA.
Proof.
  intros db.
  apply (proj1 (no_data_precedes_sync_check (H := unitHelpers) db (sampleController true))).
  reflexivity.
Defined.

Lemma chain_and_type_not_validated_witness :
  let db :=
    statusOnly (H := unitHelpers) {| matching := 5; different := 0 |} (Some 1700000000) in
  (run db (getDetailedAssetTvlApiResponse (sampleController true)
             "arbitrum" (-7) "usdc-usd-coin" NMV)).1
  <> error INVALID_PROJECT_OR_ASSET.
Proof.
  intros db.
  apply (chain_and_type_not_validated (H := unitHelpers) db (sampleController true)
           "arbitrum" (-7) "usdc-usd-coin" NMV);
    compute_done.
Defined.

(** ** Properties of the modelled helpers *)

(** The three mergers build their result by inserting one record per listed
    key into an empty map; this is what such a fold contains. *)
Lemma foldl_insert_lookup {X V : Type} (g : X -> string) (f : string -> V)
    (xs : list X) (acc : gmap string V) (k : string) :
  foldl (fun acc x => <[g x := f (g x)]> acc) acc xs !! k
  = if decide (k ∈ g <$> xs) then Some (f k) else acc !! k.
Proof.
  revert acc. induction xs as [|x xs IH]; intros acc.
  - rewrite decide_False; [done | apply not_elem_of_nil].
  - rewrite fmap_cons. cbn [foldl]. rewrite IH. destruct (decide (k ∈ g <$> xs)) as [Hin|Hnotin].
    + rewrite decide_True; [done | by apply list_elem_of_further].
    + destruct (decide (g x = k)) as [<-|Hne].
      * rewrite lookup_insert_eq. rewrite decide_True; [done | apply list_elem_of_here].
      * rewrite lookup_insert_ne by done. rewrite decide_False; [done|].
        intros Hin. apply elem_of_cons in Hin as [?|?]; congruence.
Qed.

Lemma foldl_insert_dom {X V : Type} (g : X -> string) (f : string -> V) (xs : list X) :
  dom (foldl (fun acc x => <[g x := f (g x)]> acc) (∅ : gmap string V) xs)
  = list_to_set (g <$> xs).
Proof.
  apply set_eq. intros k. rewrite elem_of_dom, foldl_insert_lookup, elem_of_list_to_set.
  destruct (decide (k ∈ g <$> xs)) as [Hin|Hnotin].
  - split; eauto.
  - rewrite lookup_empty. split; [intros [? ?]; discriminate | done].
Qed.

Module GapFillerFacts.
Import GapFiller.

Lemma slotsFrom_unfold st hi t :
  slotsFrom st hi t = if decide (t <= hi) then t :: slotsFrom st hi (t + Z.pos st) else [].
Proof.
  funelim (slotsFrom st hi t).
  - by rewrite decide_True.
  - by rewrite decide_False.
Qed.

(** Induction along the loop: a property of the pair (current slot, slots
    still to come) that holds when the loop stops and is kept by one more
    turn holds from every start. *)
Lemma slotsFrom_ind (P : Z -> list Z -> Prop) st hi :
  (forall t, hi < t -> P t []) ->
  (forall t, t <= hi -> P (t + Z.pos st) (slotsFrom st hi (t + Z.pos st)) ->
             P t (t :: slotsFrom st hi (t + Z.pos st))) ->
  forall t, P t (slotsFrom st hi t).
Proof.
  intros Hstop Hstep t.
  remember (Z.to_nat (hi - t + 1)) as n eqn:Hn.
  revert t Hn. induction (lt_wf n) as [n _ IH]. intros t ->.
  rewrite slotsFrom_unfold. destruct (decide (t <= hi)) as [Hle|Hgt].
  - apply Hstep; [assumption|]. eapply IH; [|reflexivity]. lia.
  - apply Hstop. lia.
Qed.

Lemma slotsFrom_empty st hi t : hi < t -> slotsFrom st hi t = [].
Proof. intros Hgt. rewrite slotsFrom_unfold. rewrite decide_False; [done | lia]. Qed.

Lemma slotsFrom_length st hi t :
  t <= hi -> Z.of_nat (length (slotsFrom st hi t)) = (hi - t) / Z.pos st + 1.
Proof.
  revert t.
  apply (slotsFrom_ind
           (fun t l => t <= hi -> Z.of_nat (length l) = (hi - t) / Z.pos st + 1)).
  - intros t ? ?. lia.
  - intros t Hle IH _. rewrite length_cons, Nat2Z.inj_succ.
    destruct (decide (t + Z.pos st <= hi)) as [Hnext|Hlast].
    + rewrite (IH Hnext).
      replace (hi - t) with ((hi - (t + Z.pos st)) + 1 * Z.pos st) by lia.
      rewrite Z.div_add by lia. lia.
    + rewrite slotsFrom_empty by lia. simpl. rewrite Z.div_small by lia. lia.
Qed.

(** Without the ordering condition the count is the same formula cut off at
    zero. *)
Lemma slotsFrom_length_nat st hi t :
  length (slotsFrom st hi t) = Z.to_nat ((hi - t) / Z.pos st + 1).
Proof.
  destruct (decide (t <= hi)) as [Hle|Hgt].
  - rewrite <- slotsFrom_length by assumption. by rewrite Nat2Z.id.
  - rewrite slotsFrom_empty by lia. simpl.
    assert ((hi - t) / Z.pos st < 0) by (apply Z.div_lt_upper_bound; lia). lia.
Qed.

Lemma slotsFrom_lower st hi t : Forall (fun x => t <= x) (slotsFrom st hi t).
Proof.
  revert t. apply (slotsFrom_ind (fun t l => Forall (fun x => t <= x) l)).
  - intros. constructor.
  - intros t _ IH. constructor; [lia|].
    eapply Forall_impl; [exact IH|]. simpl. intros. lia.
Qed.

Lemma slotsFrom_sorted st hi t : StronglySorted Z.lt (slotsFrom st hi t).
Proof.
  revert t. apply (slotsFrom_ind (fun _ l => StronglySorted Z.lt l)).
  - intros. constructor.
  - intros t _ IH. constructor; [assumption|].
    eapply Forall_impl; [apply slotsFrom_lower|]. simpl. intros. lia.
Qed.

Lemma slotsFrom_NoDup st hi t : NoDup (slotsFrom st hi t).
Proof.
  revert t. apply (slotsFrom_ind (fun _ l => NoDup l)).
  - intros. constructor.
  - intros t _ IH. constructor; [|assumption].
    intros Hin. pose proof (slotsFrom_lower st hi (t + Z.pos st)) as Hlow.
    rewrite Forall_forall in Hlow. specialize (Hlow _ Hin). lia.
Qed.

Section FillFacts.
Context {A : Type} `{SlotRow A}.

Lemma sumRows_timestamp t (ms : list A) : entryTimestamp (sumRows t ms) = t.
Proof.
  unfold sumRows.
  assert (Hp : entryTimestamp (placeholder t) = t) by reflexivity.
  revert Hp. generalize (placeholder t).
  induction ms as [|m ms IH]; intros e He; simpl; [assumption|].
  by apply IH.
Qed.

Lemma fillSlot_timestamp key (rows : list A) t : entryTimestamp (fillSlot key rows t) = t.
Proof.
  unfold fillSlot. destruct (matchingRows key t rows); [reflexivity|].
  apply sumRows_timestamp.
Qed.

Lemma fillSeries_timestamps cfg r (rows : list A) key latest :
  entryTimestamp <$> fillSeries cfg r rows key latest = slots cfg r latest.
Proof.
  unfold fillSeries. rewrite <- list_fmap_compose.
  rewrite <- (list_fmap_id (slots cfg r latest)) at 2.
  apply list_fmap_ext. intros i t _. simpl. apply fillSlot_timestamp.
Qed.

Lemma fill_lookup cfg r (rows : list A) keys latest key :
  key ∈ keys -> fill cfg r rows keys latest !! key = Some (fillSeries cfg r rows key latest).
Proof.
  intros Hin. unfold fill.
  rewrite (foldl_insert_lookup (fun k => k) (fun k => fillSeries cfg r rows k latest)).
  rewrite list_fmap_id. by rewrite decide_True.
Qed.

Lemma filledAt_fillAll cfg r (reports : ByResolution (list A)) keys latest :
  filledAt r (fillAllMissingAggregatedReports cfg keys reports latest)
  = fill cfg r (reportsAt r reports) keys latest.
Proof. by destruct r. Qed.

Lemma fillSlot_placeholder key (rows : list A) t :
  matchingRows key t rows = [] -> fillSlot key rows t = placeholder t.
Proof. unfold fillSlot. by intros ->. Qed.

(** C3: for every resolution, every requested key and every latest
    timestamp, the series that [fillAllMissingAggregatedReports] produces for
    the key has floor((latest - minTimestamp) / step) + 1 entries, its
    timestamps are strictly ascending without duplicates, and every slot
    without a matching source row holds a placeholder with asset amount and
    usd value zero.  The count is a number of entries, so a negative value
    of the formula reads as zero; it is not negative unless the daily series
    is asked for a latest timestamp before genesis. *)
Theorem filled_series_shape cfg r (reports : ByResolution (list A)) keys latest key :
  key ∈ keys ->
  exists series,
    filledAt r (fillAllMissingAggregatedReports cfg keys reports latest) !! key = Some series
    /\ length series
       = Z.to_nat ((latest - minTimestamp cfg r latest) / Z.pos (step cfg r) + 1)
    /\ ((r = Daily -> genesis cfg <= latest) ->
        Z.of_nat (length series)
        = (latest - minTimestamp cfg r latest) / Z.pos (step cfg r) + 1)
    /\ StronglySorted Z.lt (entryTimestamp <$> series)
    /\ NoDup (entryTimestamp <$> series)
    /\ forall e, e ∈ series ->
         matchingRows key (entryTimestamp e) (reportsAt r reports) = [] ->
         e = placeholder (entryTimestamp e) /\ assetAmount e = 0 /\ usdValue e = 0.
Proof.
  intros Hkey.
  exists (fillSeries cfg r (reportsAt r reports) key latest).
  rewrite filledAt_fillAll, fill_lookup by assumption.
  rewrite <- (length_fmap entryTimestamp), fillSeries_timestamps. unfold slots.
  split; [reflexivity|]. split; [apply slotsFrom_length_nat|].
  split; [|split; [apply slotsFrom_sorted|split; [apply slotsFrom_NoDup|]]].
  - intros Hwindow. apply slotsFrom_length.
    destruct r; simpl; [lia | lia | by apply Hwindow].
  - intros e He Hnone. unfold fillSeries in He.
    apply list_elem_of_fmap in He as (t & -> & _).
    rewrite fillSlot_timestamp in Hnone |- *.
    by rewrite (fillSlot_placeholder _ _ _ Hnone).
Qed.

End FillFacts.

Lemma filled_series_shape_witness :
  exists series,
    filledAt Daily (fillAllMissingAggregatedReports sampleConfig ["P"; "Q"]%string
                      sampleAggregated 259200) !! "P"%string = Some series
    /\ length series = 4%nat
    /\ Z.of_nat (length series) = 259200 / 86400 + 1
    /\ StronglySorted Z.lt (entryTimestamp <$> series)
    /\ NoDup (entryTimestamp <$> series).
Proof.
  destruct (filled_series_shape sampleConfig Daily sampleAggregated ["P"; "Q"]%string
              259200 "P"%string) as (series & Hs & Hlen & Hz & Hsorted & Hnodup & _).
  - compute_done.
  - exists series. split; [exact Hs|]. split; [exact Hlen|].
    split; [|split; assumption].
    apply Hz. intros _. vm_compute. discriminate.
Defined.

(** Scenario A of the specification: three hourly slots up to the latest
    timestamp, one source row in the middle. *)
Example scenarioA :
  fill scenarioA_config Hourly [aggregated "P" CBV 999 50] ["P"%string] 1000 !! "P"%string
  = Some [ {| entryTimestamp := 998; assetAmount := 0; usdValue := 0 |};
           {| entryTimestamp := 999; assetAmount := 0; usdValue := 50 |};
           {| entryTimestamp := 1000; assetAmount := 0; usdValue := 0 |} ].
Proof. vm_compute. reflexivity. Qed.

End GapFillerFacts.

Module GrouperFacts.
Import Grouper.

Section GroupFacts.
Context {A K1 K2 : Type} `{Countable K1} `{Countable K2}.
Variables (k1 : A -> K1) (k2 : A -> K2).

Lemma groupInsert_same (a : K1) (b : K2) (l : list A) (r : A) :
  k1 r = a -> k2 r = b ->
  groupInsert k1 k2 {[a := {[b := l]}]} r = {[a := {[b := l ++ [r]]}]}.
Proof.
  intros <- <-. unfold groupInsert.
  rewrite lookup_singleton_eq. simpl. rewrite lookup_singleton_eq. simpl.
  by rewrite !insert_singleton_eq.
Qed.

Lemma foldl_groupInsert_same (a : K1) (b : K2) (rows l : list A) :
  Forall (fun r => k1 r = a /\ k2 r = b) rows ->
  foldl (groupInsert k1 k2) {[a := {[b := l]}]} rows = {[a := {[b := l ++ rows]}]}.
Proof.
  intros Hall. revert l. induction Hall as [|r rows [Ha Hb] _ IH]; intros l; simpl.
  - by rewrite app_nil_r.
  - rewrite (groupInsert_same a b l r Ha Hb), IH. by rewrite <- app_assoc.
Qed.

(** Rows that agree on both keys end up, in their order, in one group. *)
Lemma groupBy2_same (a : K1) (b : K2) (rows : list A) :
  rows <> [] -> Forall (fun r => k1 r = a /\ k2 r = b) rows ->
  groupBy2 k1 k2 rows = {[a := {[b := rows]}]}.
Proof.
  intros Hne Hall. destruct Hall as [|r rows [Ha Hb] Hall]; [done|].
  unfold groupBy2. simpl.
  assert (Hfirst : groupInsert k1 k2 ∅ r = {[a := {[b := [r]]}]}).
  { unfold groupInsert. rewrite lookup_empty. simpl. rewrite lookup_empty. simpl.
    rewrite Ha, Hb. by rewrite !insert_empty. }
  rewrite Hfirst. by rewrite foldl_groupInsert_same.
Qed.

End GroupFacts.

Lemma reduceReports_from (acc : Z * Z) (rs : list Report.t) :
  foldl (fun acc r => (acc.1 + Report.valueAsset r, acc.2 + Report.valueUsd r)) acc rs
  = (acc.1 + total (Report.valueAsset <$> rs), acc.2 + total (Report.valueUsd <$> rs)).
Proof.
  unfold total. revert acc. induction rs as [|r rs IH]; intros [a u].
  - simpl. f_equal; lia.
  - cbn [foldl]. rewrite IH, !fmap_cons. cbn [foldr fst snd]. f_equal; lia.
Qed.

Lemma reduceReports_total (rs : list Report.t) :
  reduceReports rs = (total (Report.valueAsset <$> rs), total (Report.valueUsd <$> rs)).
Proof. unfold reduceReports. by rewrite reduceReports_from. Qed.

(** Addition is commutative, so a column total does not depend on the order
    of the rows. *)
Lemma total_Permutation (xs ys : list Z) : xs ≡ₚ ys -> total xs = total ys.
Proof.
  unfold total.
  induction 1 as [|x xs ys _ IH|x y xs|xs ys zs _ IH1 _ IH2]; simpl; lia.
Qed.

Lemma reduceReports_Permutation (rs rs' : list Report.t) :
  rs ≡ₚ rs' -> reduceReports rs = reduceReports rs'.
Proof.
  intros Hperm. rewrite !reduceReports_total.
  f_equal; apply total_Permutation; by apply fmap_Permutation.
Qed.

Lemma dedupeGroups_singleton {K : Type} `{Countable K} (p : ProjectId) (k : K)
    (rows : list Report.t) :
  dedupeGroups {[p := {[k := rows]}]} = {[p := {[k := reduceReports rows]}]}.
Proof. unfold dedupeGroups. by rewrite !map_fmap_singleton. Qed.

(** C4: Reports that share project, asset and timestamp (and differ, if at
    all, in their value type) are reduced by the value-type deduplication to
    one (asset amount, usd value) pair, the column sums, both in the latest
    snapshot (grouped by asset) and in a series (grouped by timestamp); every
    permutation of the rows gives the same result. *)
Theorem dedupe_sums_order_independent (p : ProjectId) (a : AssetId) (t : UnixTime)
    (rows : list Report.t) :
  rows <> [] ->
  Forall (fun r => Report.projectId r = p /\ Report.assetId r = a /\ Report.timestamp r = t)
         rows ->
  dedupe rows
  = {[p := {[a := (total (Report.valueAsset <$> rows), total (Report.valueUsd <$> rows))]}]}
  /\ dedupeByTimestamp rows
     = {[p := {[t := (total (Report.valueAsset <$> rows), total (Report.valueUsd <$> rows))]}]}
  /\ forall rows', rows' ≡ₚ rows ->
       dedupe rows' = dedupe rows /\ dedupeByTimestamp rows' = dedupeByTimestamp rows.
Proof.
  assert (Hshape : forall rs : list Report.t, rs <> [] ->
            Forall (fun r => Report.projectId r = p /\ Report.assetId r = a
                             /\ Report.timestamp r = t) rs ->
            dedupe rs = {[p := {[a := reduceReports rs]}]}
            /\ dedupeByTimestamp rs = {[p := {[t := reduceReports rs]}]}).
  { intros rs Hne Hall. unfold dedupe, dedupeByTimestamp,
      groupByProjectIdAndAssetType, groupByProjectIdAndTimestamp.
    rewrite (groupBy2_same Report.projectId Report.assetId p a rs Hne),
            (groupBy2_same Report.projectId Report.timestamp p t rs Hne).
    - by rewrite !dedupeGroups_singleton.
    - eapply Forall_impl; [exact Hall|]. simpl. tauto.
    - eapply Forall_impl; [exact Hall|]. simpl. tauto. }
  intros Hne Hall. destruct (Hshape rows Hne Hall) as [Hasset Hts].
  rewrite Hasset, Hts, <- reduceReports_total. split; [done|]. split; [done|].
  intros rows' Hperm.
  assert (Hne' : rows' <> []).
  { intros ->. apply Permutation_nil_l in Hperm. congruence. }
  assert (Hall' : Forall (fun r => Report.projectId r = p /\ Report.assetId r = a
                                   /\ Report.timestamp r = t) rows').
  { by rewrite Hperm. }
  destruct (Hshape rows' Hne' Hall') as [-> ->].
  by rewrite (reduceReports_Permutation rows' rows Hperm).
Qed.

(** Scenario B of the specification: CBV usd=30 and EBV usd=20 at one slot
    give one entry with usd=50, in either order. *)
Lemma dedupe_sums_order_independent_witness :
  dedupe scenarioB = {[ "P"%string := {[ "A"%string := (5, 50) ]} ]}
  /\ dedupe (reverse scenarioB) = dedupe scenarioB.
Proof.
  destruct (dedupe_sums_order_independent "P" "A" 1000 scenarioB) as (Hsum & _ & Hperm).
  - discriminate.
  - repeat constructor.
  - split; [exact Hsum|]. apply Hperm. apply reverse_Permutation.
Defined.

End GrouperFacts.

Module BreakdownMergerFacts.
Import BreakdownMerger.

Lemma groupAndMergeBreakdowns_lookup projects sources (k : ProjectId) :
  groupAndMergeBreakdowns projects sources !! k
  = if decide (k ∈ ReportProject.projectId <$> projects)
    then Some (mergedRecord sources k) else None.
Proof.
  unfold groupAndMergeBreakdowns.
  rewrite (foldl_insert_lookup ReportProject.projectId (mergedRecord sources)).
  by rewrite lookup_empty.
Qed.

(** C7: for every project list and every triple of category breakdowns, the
    merged output has an entry exactly for the projects of the list (its key
    set is the set of listed ids, one record per id); the record of a listed
    project holds, per category, the entries that category has for it or the
    empty list, so a project present in one category only gets that category
    populated and the other two empty, and a project absent from the list
    has no entry. *)
Theorem merged_breakdowns_cover_projects projects sources :
  dom (groupAndMergeBreakdowns projects sources)
  = list_to_set (ReportProject.projectId <$> projects)
  /\ (forall p, p ∈ projects ->
        groupAndMergeBreakdowns projects sources !! ReportProject.projectId p
        = Some {| canonicalAssets := default [] (canonical sources !! ReportProject.projectId p);
                  nativeAssets := default [] (native sources !! ReportProject.projectId p);
                  externalAssets := default [] (external sources !! ReportProject.projectId p) |})
  /\ (forall k, k ∉ ReportProject.projectId <$> projects ->
        groupAndMergeBreakdowns projects sources !! k = None)
  /\ (forall p entries, p ∈ projects ->
        let k := ReportProject.projectId p in
        (native sources !! k = Some entries -> canonical sources !! k = None ->
         external sources !! k = None ->
         groupAndMergeBreakdowns projects sources !! k
         = Some {| canonicalAssets := []; nativeAssets := entries; externalAssets := [] |})
        /\ (canonical sources !! k = Some entries -> native sources !! k = None ->
            external sources !! k = None ->
            groupAndMergeBreakdowns projects sources !! k
            = Some {| canonicalAssets := entries; nativeAssets := []; externalAssets := [] |})
        /\ (external sources !! k = Some entries -> canonical sources !! k = None ->
            native sources !! k = None ->
            groupAndMergeBreakdowns projects sources !! k
            = Some {| canonicalAssets := []; nativeAssets := []; externalAssets := entries |})).
Proof.
  assert (Hlisted : forall p, p ∈ projects ->
            groupAndMergeBreakdowns projects sources !! ReportProject.projectId p
            = Some (mergedRecord sources (ReportProject.projectId p))).
  { intros p Hp. rewrite groupAndMergeBreakdowns_lookup.
    rewrite decide_True; [done|]. by apply list_elem_of_fmap_2. }
  split; [|split; [|split]].
  - unfold groupAndMergeBreakdowns.
    apply (foldl_insert_dom ReportProject.projectId (mergedRecord sources)).
  - exact Hlisted.
  - intros k Hk. rewrite groupAndMergeBreakdowns_lookup. by rewrite decide_False.
  - intros p entries Hp. cbv zeta. rewrite (Hlisted p Hp). unfold mergedRecord.
    repeat split; intros -> -> ->; reflexivity.
Qed.

Lemma merged_breakdowns_cover_projects_witness :
  groupAndMergeBreakdowns scenarioE_projects scenarioE_sources !! "P"%string
  = Some {| canonicalAssets := [];
            nativeAssets := [ {| entryAssetId := "arb"; amount := 10; usdValue := 12 |} ];
            externalAssets := [] |}
  /\ groupAndMergeBreakdowns scenarioE_projects scenarioE_sources !! "Q"%string
     = Some {| canonicalAssets := []; nativeAssets := []; externalAssets := [] |}
  /\ groupAndMergeBreakdowns scenarioE_projects scenarioE_sources !! "X"%string = None.
Proof.
  destruct (merged_breakdowns_cover_projects scenarioE_projects scenarioE_sources)
    as (_ & Hlisted & Habsent & Hsingle).
  split; [|split].
  - apply (proj1 (Hsingle {| ReportProject.projectId := "P" |} _ ltac:(repeat constructor)));
      reflexivity.
  - apply (Hlisted {| ReportProject.projectId := "Q" |}). repeat constructor.
  - apply Habsent. compute_done.
Defined.

End BreakdownMergerFacts.

Module ResponseGeneratorFacts.
Import ResponseGenerator.

Lemma generateDetailedTvlApiResponse_lookup fh fs fd lg projectIds (k : ProjectId) :
  generateDetailedTvlApiResponse fh fs fd lg projectIds !! k
  = if decide (k ∈ projectIds) then Some (projectCharts fh fs fd lg k) else None.
Proof.
  unfold generateDetailedTvlApiResponse.
  rewrite (foldl_insert_lookup (fun k => k) (projectCharts fh fs fd lg)).
  by rewrite list_fmap_id, lookup_empty.
Qed.

(** C8: whatever rows the grouped inputs hold, the response generated by
    [generateDetailedTvlApiResponse] has an entry exactly for the ids of its
    [projectIds] argument; a project absent from [projectIds] is not in the
    response even when the inputs reference it. *)
Theorem generated_projects_within_projectIds fh fs fd lg projectIds :
  dom (generateDetailedTvlApiResponse fh fs fd lg projectIds) = list_to_set projectIds
  /\ forall p, p ∉ projectIds ->
       generateDetailedTvlApiResponse fh fs fd lg projectIds !! p = None.
Proof.
  split.
  - unfold generateDetailedTvlApiResponse.
    rewrite (foldl_insert_dom (fun k => k) (projectCharts fh fs fd lg)).
    by rewrite list_fmap_id.
  - intros p Hp. rewrite generateDetailedTvlApiResponse_lookup. by rewrite decide_False.
Qed.

Lemma generated_projects_within_projectIds_witness :
  is_Some (ghostSeries !! "ghost"%string)
  /\ is_Some (ghostLatest !! "ghost"%string)
  /\ generateDetailedTvlApiResponse ghostSeries ghostSeries ghostSeries ghostLatest
       ["P"%string] !! "ghost"%string = None.
Proof.
  split; [compute_done|]. split; [compute_done|].
  apply (proj2 (generated_projects_within_projectIds ghostSeries ghostSeries ghostSeries
                  ghostLatest ["P"%string])).
  compute_done.
Defined.

End ResponseGeneratorFacts.

(** ** Further properties of the controller *)

Section ControllerOutcomes.
Context `{Helpers}.
Implicit Types (c : DetailedTvlController) (db : Storage).

(** The sync guard lets a call through exactly when the data is synced or
    the option is off. *)
Lemma sync_guard_open (n : Z) (flag : bool) :
  negb (n =? 0) && flag = false <-> n = 0 \/ flag = false.
Proof.
  destruct (Z.eqb_spec n 0) as [->|Hne]; destruct flag; simpl; split; auto.
  - intros [?|?]; [contradiction|discriminate].
Qed.

(** The outcome of the two operations without arguments, with the queries
    issued on the error paths. *)
Lemma getDetailedTvlApiResponse_error_trace db c e :
  (run db (getDetailedTvlApiResponse c)).1 = error e ->
  (e = NO_DATA \/ e = DATA_NOT_FULLY_SYNCED)
  /\ (run db (getDetailedTvlApiResponse c)).2
     = [issued (FindCountsForHash (aggregatedConfigHash c)); issued FindLatestTimestamp].
Proof.
  unfold getDetailedTvlApiResponse, getDataTimings. cbn.
  destruct (db _ FindLatestTimestamp) as [ts|]; cbn.
  - destruct (negb _ && _); cbn; [|discriminate]. intros [= <-]. auto.
  - intros [= <-]. auto.
Qed.

Lemma getProjectTokenBreakdownApiResponse_error_trace db c e :
  (run db (getProjectTokenBreakdownApiResponse c)).1 = error e ->
  (e = NO_DATA \/ e = DATA_NOT_FULLY_SYNCED)
  /\ (run db (getProjectTokenBreakdownApiResponse c)).2
     = [issued (FindCountsForHash (aggregatedConfigHash c)); issued FindLatestTimestamp].
Proof.
  unfold getProjectTokenBreakdownApiResponse, getDataTimings. cbn.
  destruct (db _ FindLatestTimestamp) as [ts|]; cbn.
  - destruct (negb _ && _); cbn; [|discriminate]. intros [= <-]. auto.
  - intros [= <-]. auto.
Qed.

(** X1: an error never costs a row query.  Whenever one of the three
    operations returns an error, the only queries it has issued are the two
    status queries of [getDataTimings], or none at all when the error is the
    validation error of [getDetailedAssetTvlApiResponse]. *)
Theorem error_issues_no_row_query db c :
  let statusQueries :=
    [issued (FindCountsForHash (aggregatedConfigHash c)); issued FindLatestTimestamp] in
  (forall e, (run db (getDetailedTvlApiResponse c)).1 = error e ->
             (run db (getDetailedTvlApiResponse c)).2 = statusQueries)
  /\ (forall e, (run db (getProjectTokenBreakdownApiResponse c)).1 = error e ->
                (run db (getProjectTokenBreakdownApiResponse c)).2 = statusQueries)
  /\ (forall projectId chainId assetId assetType e,
        let r := run db (getDetailedAssetTvlApiResponse c projectId chainId assetId assetType) in
        r.1 = error e ->
        (e = INVALID_PROJECT_OR_ASSET /\ r.2 = [])
        \/ (e <> INVALID_PROJECT_OR_ASSET /\ r.2 = statusQueries)).
Proof.
  intros statusQueries. split; [|split].
  - intros e He. by apply getDetailedTvlApiResponse_error_trace in He as [_ ?].
  - intros e He. by apply getProjectTokenBreakdownApiResponse_error_trace in He as [_ ?].
  - intros projectId chainId assetId assetType e r He.
    destruct (decide (knownAsset c assetId /\ knownProject c projectId)) as [[Ha Hp]|Hbad].
    + right.
      pose proof (getDetailedAssetTvlApiResponse_cases db c projectId chainId assetId
                    assetType Ha Hp) as Hcases.
      cbv zeta in Hcases. fold r in Hcases.
      destruct (db _ FindLatestTimestamp) as [ts|].
      * destruct (negb _ && _).
        -- rewrite Hcases in He |- *. simpl in *. by injection He as <-.
        -- destruct Hcases as [[d Hd] _]. congruence.
      * rewrite Hcases in He |- *. simpl in *. by injection He as <-.
    + left. subst r.
      rewrite getDetailedAssetTvlApiResponse_invalid in He |- *.
      * simpl in *. by injection He as <-.
      * apply not_and_l in Hbad. exact Hbad.
      * apply not_and_l in Hbad. exact Hbad.
Qed.

(** X2: the validation error has one source.  [getDetailedTvlApiResponse]
    and [getProjectTokenBreakdownApiResponse] only fail with [NO_DATA] or
    [DATA_NOT_FULLY_SYNCED], as their result types declare, and
    [getDetailedAssetTvlApiResponse] returns [INVALID_PROJECT_OR_ASSET] only
    when the asset or the project is unknown. *)
Theorem invalid_only_from_unknown_ids db c :
  (forall e, (run db (getDetailedTvlApiResponse c)).1 = error e ->
             e = NO_DATA \/ e = DATA_NOT_FULLY_SYNCED)
  /\ (forall e, (run db (getProjectTokenBreakdownApiResponse c)).1 = error e ->
                e = NO_DATA \/ e = DATA_NOT_FULLY_SYNCED)
  /\ (forall projectId chainId assetId assetType,
        (run db (getDetailedAssetTvlApiResponse c projectId chainId assetId assetType)).1
        = error INVALID_PROJECT_OR_ASSET ->
        ~ knownAsset c assetId \/ ~ knownProject c projectId).
Proof.
  split; [|split].
  - intros e He. by apply getDetailedTvlApiResponse_error_trace in He as [? _].
  - intros e He. by apply getProjectTokenBreakdownApiResponse_error_trace in He as [? _].
  - intros projectId chainId assetId assetType He.
    destruct (decide (knownAsset c assetId)) as [Ha|Ha]; [|by left].
    destruct (decide (knownProject c projectId)) as [Hp|Hp]; [|by right].
    exfalso.
    pose proof (getDetailedAssetTvlApiResponse_cases db c projectId chainId assetId
                  assetType Ha Hp) as Hcases.
    cbv zeta in Hcases.
    destruct (db _ FindLatestTimestamp) as [ts|].
    + destruct (negb _ && _).
      * rewrite Hcases in He. discriminate.
      * destruct Hcases as [[d Hd] _]. congruence.
    + rewrite Hcases in He. discriminate.
Qed.

(** X3: when an operation succeeds.  Each operation returns a success
    exactly when the storage layer reports a latest timestamp and the data
    is synced or [errorOnUnsyncedDetailedTvl] is off;
    [getDetailedAssetTvlApiResponse] needs a known asset and project on top. *)
Theorem success_exactly_when db c :
  let passes :=
    (exists ts, db _ FindLatestTimestamp = Some ts)
    /\ (different (db _ (FindCountsForHash (aggregatedConfigHash c))) = 0
        \/ errorOnUnsyncedDetailedTvl (options c) = false) in
  ((exists d, (run db (getDetailedTvlApiResponse c)).1 = success d) <-> passes)
  /\ ((exists d, (run db (getProjectTokenBreakdownApiResponse c)).1 = success d) <-> passes)
  /\ (forall projectId chainId assetId assetType,
        (exists d,
           (run db (getDetailedAssetTvlApiResponse c projectId chainId assetId assetType)).1
           = success d)
        <-> knownAsset c assetId /\ knownProject c projectId /\ passes).
Proof.
  intros passes. subst passes.
  pose proof (getDetailedTvlApiResponse_cases db c) as Htvl.
  pose proof (getProjectTokenBreakdownApiResponse_cases db c) as Hbr.
  pose proof (getDetailedAssetTvlApiResponse_cases db c) as Hasset.
  pose proof (sync_guard_open
                (different (db _ (FindCountsForHash (aggregatedConfigHash c))))
                (errorOnUnsyncedDetailedTvl (options c))) as Hguard.
  destruct (db _ FindLatestTimestamp) as [ts|].
  - destruct (negb _ && _).
    + assert (Hclosed : ~ (different (db _ (FindCountsForHash (aggregatedConfigHash c))) = 0
                           \/ errorOnUnsyncedDetailedTvl (options c) = false)).
      { intros Hopen. apply Hguard in Hopen. discriminate. }
      split; [|split].
      * rewrite Htvl. split; [intros [d Hd]; discriminate | tauto].
      * rewrite Hbr. split; [intros [d Hd]; discriminate | tauto].
      * intros projectId chainId assetId assetType. split; [|tauto].
        intros [d Hd].
        destruct (decide (knownAsset c assetId)) as [Ha|Ha];
          [destruct (decide (knownProject c projectId)) as [Hp|Hp]|].
        -- specialize (Hasset projectId chainId assetId assetType Ha Hp).
           cbv zeta in Hasset. rewrite Hasset in Hd. discriminate.
        -- rewrite getDetailedAssetTvlApiResponse_invalid in Hd by auto. discriminate.
        -- rewrite getDetailedAssetTvlApiResponse_invalid in Hd by auto. discriminate.
    + assert (Hopen : different (db _ (FindCountsForHash (aggregatedConfigHash c))) = 0
                      \/ errorOnUnsyncedDetailedTvl (options c) = false)
        by (by apply Hguard).
      split; [|split].
      * split; [eauto | intros _; exact Htvl].
      * split; [eauto | intros _; exact Hbr].
      * intros projectId chainId assetId assetType. split.
        -- intros [d Hd].
           destruct (decide (knownAsset c assetId)) as [Ha|Ha];
             [destruct (decide (knownProject c projectId)) as [Hp|Hp]|].
           ++ eauto 6.
           ++ rewrite getDetailedAssetTvlApiResponse_invalid in Hd by auto. discriminate.
           ++ rewrite getDetailedAssetTvlApiResponse_invalid in Hd by auto. discriminate.
        -- intros (Ha & Hp & _).
           specialize (Hasset projectId chainId assetId assetType Ha Hp).
           cbv zeta in Hasset. apply Hasset.
  - split; [|split].
    + rewrite Htvl. split; [intros [d Hd]; discriminate | intros [[ts [=]] _]].
    + rewrite Hbr. split; [intros [d Hd]; discriminate | intros [[ts [=]] _]].
    + intros projectId chainId assetId assetType. split.
      * intros [d Hd].
        destruct (decide (knownAsset c assetId)) as [Ha|Ha];
          [destruct (decide (knownProject c projectId)) as [Hp|Hp]|].
        -- specialize (Hasset projectId chainId assetId assetType Ha Hp).
           cbv zeta in Hasset. rewrite Hasset in Hd. discriminate.
        -- rewrite getDetailedAssetTvlApiResponse_invalid in Hd by auto. discriminate.
        -- rewrite getDetailedAssetTvlApiResponse_invalid in Hd by auto. discriminate.
      * intros (_ & _ & [ts [=]] & _).
Qed.

(** X4: the option only matters for unsynced data.  With a mismatch count
    of zero, two controllers that differ only in their options run each
    operation to the same result with the same queries. *)
Theorem option_irrelevant_when_synced db c c' :
  projects c = projects c' -> tokens c = tokens c' ->
  aggregatedConfigHash c = aggregatedConfigHash c' ->
  different (db _ (FindCountsForHash (aggregatedConfigHash c))) = 0 ->
  run db (getDetailedTvlApiResponse c) = run db (getDetailedTvlApiResponse c')
  /\ run db (getProjectTokenBreakdownApiResponse c)
     = run db (getProjectTokenBreakdownApiResponse c')
  /\ forall projectId chainId assetId assetType,
       run db (getDetailedAssetTvlApiResponse c projectId chainId assetId assetType)
       = run db (getDetailedAssetTvlApiResponse c' projectId chainId assetId assetType).
Proof.
  destruct c as [ps ts h o], c' as [ps' ts' h' o']. simpl. intros <- <- <- Hsynced.
  split; [|split].
  - unfold getDetailedTvlApiResponse, getDataTimings. cbn. rewrite Hsynced. cbn.
    by destruct (db _ FindLatestTimestamp).
  - unfold getProjectTokenBreakdownApiResponse, getDataTimings. cbn. rewrite Hsynced. cbn.
    by destruct (db _ FindLatestTimestamp).
  - intros projectId chainId assetId assetType.
    unfold getDetailedAssetTvlApiResponse, getDataTimings. cbn.
    destruct (List.find _ ts); [|done]. destruct (List.find _ ps); [|done].
    cbn. rewrite Hsynced. cbn. by destruct (db _ FindLatestTimestamp).
Qed.



(** X6: the breakdown response is one snapshot.  On success the reports,
    the balances and the prices are all read at the latest timestamp the
    storage layer reported, that timestamp is the [dataTimestamp] of the
    response, the external breakdown is taken from the EBV reports and the
    native one from the NMV reports of the same read, and the five queries
    are issued in this order. *)
Theorem breakdown_is_one_snapshot db c ts :
  db _ FindLatestTimestamp = Some ts ->
  different (db _ (FindCountsForHash (aggregatedConfigHash c))) = 0
  \/ errorOnUnsyncedDetailedTvl (options c) = false ->
  let latestReports := db _ (ReportGetByTimestamp ts) in
  run db (getProjectTokenBreakdownApiResponse c)
  = (success
       {| dataTimestamp := ts;
          breakdowns :=
            groupAndMergeBreakdowns (projects c)
              {| external := getNonCanonicalAssetsBreakdown latestReports (tokens c) EBV;
                 native := getNonCanonicalAssetsBreakdown latestReports (tokens c) NMV;
                 canonical :=
                   getCanonicalAssetsBreakdown (db _ (BalanceGetByTimestamp ts))
                     (db _ (PriceGetByTimestamp ts)) (projects c) |} |},
     [issued (FindCountsForHash (aggregatedConfigHash c));
      issued FindLatestTimestamp;
      issued (ReportGetByTimestamp ts);
      issued (BalanceGetByTimestamp ts);
      issued (PriceGetByTimestamp ts)]).
Proof.
  intros Hlatest Hopen. apply sync_guard_open in Hopen.
  unfold getProjectTokenBreakdownApiResponse, getDataTimings. cbn.
  rewrite Hlatest. cbn. rewrite Hopen. reflexivity.
Qed.

(** X7: the chart response is built from four reads.  On success
    [getDetailedTvlApiResponse] reads the hourly and six-hourly aggregates
    from their minimum timestamps, all daily aggregates and the reports at
    the latest timestamp, in this order; the fill step seeks the configured
    project ids followed by ALL, BRIDGES and LAYER2S, while the response is
    generated for the configured project ids only. *)
Theorem tvl_response_from_four_reads db c ts :
  db _ FindLatestTimestamp = Some ts ->
  different (db _ (FindCountsForHash (aggregatedConfigHash c))) = 0
  \/ errorOnUnsyncedDetailedTvl (options c) = false ->
  let filled :=
    fillAllMissingAggregatedReports
      ((ReportProject.projectId <$> projects c)
         ++ [ProjectId_ALL; ProjectId_BRIDGES; ProjectId_LAYER2S])
      {| hourly := db _ (GetHourlyWithAnyType (getHourlyMinTimestamp ts));
         sixHourly := db _ (GetSixHourlyWithAnyType (getSixHourlyMinTimestamp ts));
         daily := db _ GetDailyWithAnyType |}
      ts in
  run db (getDetailedTvlApiResponse c)
  = (success
       (generateDetailedTvlApiResponse
          (groupByProjectIdAndTimestamp (filledHourlyReports filled))
          (groupByProjectIdAndTimestamp (filledSixHourlyReports filled))
          (groupByProjectIdAndTimestamp (filledDailyReports filled))
          (groupByProjectIdAndAssetType (db _ (ReportGetByTimestamp ts)))
          (ReportProject.projectId <$> projects c)),
     [issued (FindCountsForHash (aggregatedConfigHash c));
      issued FindLatestTimestamp;
      issued (GetHourlyWithAnyType (getHourlyMinTimestamp ts));
      issued (GetSixHourlyWithAnyType (getSixHourlyMinTimestamp ts));
      issued GetDailyWithAnyType;
      issued (ReportGetByTimestamp ts)]).
Proof.
  intros Hlatest Hopen. apply sync_guard_open in Hopen.
  apply getDetailedTvlApiResponse_success; assumption.
Qed.

End ControllerOutcomes.

Lemma option_irrelevant_when_synced_witness :
  let db :=
    statusOnly (H := unitHelpers) {| matching := 5; different := 0 |} (Some 1700000000) in
  run db (getDetailedTvlApiResponse (sampleController true))
  = run db (getDetailedTvlApiResponse (sampleController false)).
Proof.
  intros db.
  apply (option_irrelevant_when_synced (H := unitHelpers) db
           (sampleController true) (sampleController false));
    reflexivity.
Defined.


Lemma breakdown_is_one_snapshot_witness :
  let db :=
    statusOnly (H := unitHelpers) {| matching := 5; different := 2 |} (Some 1700000000) in
  dataTimestamp
    <$> match (run db (getProjectTokenBreakdownApiResponse (sampleController false))).1 with
        | success d => Some d
        | error _ => None
        end
  = Some 1700000000.
Proof.
  intros db.
  rewrite (breakdown_is_one_snapshot (H := unitHelpers) db (sampleController false)
             1700000000 eq_refl (or_intror eq_refl)).
  reflexivity.
Defined.

Lemma tvl_response_from_four_reads_witness :
  let db :=
    statusOnly (H := unitHelpers) {| matching := 5; different := 0 |} (Some 1700000000) in
  length (run db (getDetailedTvlApiResponse (sampleController true))).2 = 6%nat.
Proof.
  intros db.
  rewrite (tvl_response_from_four_reads (H := unitHelpers) db (sampleController true)
             1700000000 eq_refl (or_introl eq_refl)).
  reflexivity.
Defined.

(** ** Properties of CachedDataRepository *)

Module CachedDataRepositoryFacts.
Import CachedDataRepository.

Section RepositoryFacts.
Context {ReportOutput : Type}.
Implicit Types (table : gmap Z (Row (ReportOutput := ReportOutput))).
Implicit Types (history : list (Update (ReportOutput := ReportOutput))).

Lemma getData_applyUpdate table u :
  getData (applyUpdate table u) = cell (getData table) u.
Proof.
  destruct u as [now d|]; unfold getData; simpl.
  - by rewrite lookup_insert_eq.
  - by rewrite lookup_empty.
Qed.

(** X8: the repository is a one-cell cache.  After any sequence of
    [saveData] and [deleteAll] calls, on any table, [getData] returns the
    data of the last [saveData] if no [deleteAll] came after it, nothing if
    the last call was [deleteAll], and what it returned before if there was
    no call; in particular [getData] after [saveData(data)] returns [data]. *)
Theorem repository_is_one_cell table history :
  getData (foldl applyUpdate table history) = foldl cell (getData table) history.
Proof.
  revert table. induction history as [|u history IH]; intros table; simpl; [done|].
  by rewrite IH, getData_applyUpdate.
Qed.

Lemma applyUpdate_dom table u :
  dom table ⊆ {[id]} -> dom (applyUpdate table u) ⊆ {[id]}.
Proof.
  intros Hdom. destruct u as [now d|]; simpl.
  - rewrite dom_insert_L. by apply union_least.
  - rewrite dom_empty_L. apply empty_subseteq.
Qed.

Lemma single_row_size table : dom table ⊆ {[id]} -> (size table <= 1)%nat.
Proof.
  intros Hdom. rewrite <- size_dom.
  etransitivity; [apply subseteq_size, Hdom|]. by rewrite size_singleton.
Qed.

(** X9: "only one row should exist".  If the table holds no row under
    another id, no sequence of [saveData] and [deleteAll] calls creates one:
    the table keeps at most one row, the one with id 0, and holds exactly
    one right after a [saveData]. *)
Theorem only_one_row table history :
  dom table ⊆ {[id]} ->
  dom (foldl applyUpdate table history) ⊆ {[id]}
  /\ (size (foldl applyUpdate table history) <= 1)%nat
  /\ forall now d,
       size (saveData now d (foldl applyUpdate table history)).1 = 1%nat.
Proof.
  intros Hdom.
  assert (Hinv : dom (foldl applyUpdate table history) ⊆ {[id]}).
  { revert table Hdom. induction history as [|u history IH]; intros table Hdom; simpl;
      [done|]. by apply IH, applyUpdate_dom. }
  split; [exact Hinv|]. split; [by apply single_row_size|].
  intros now d. simpl.
  assert (Hsaved : dom (<[id := {| unix_timestamp := pretty now; data := d |}]>
                          (foldl applyUpdate table history)) = {[id]}).
  { rewrite dom_insert_L.
    apply (anti_symm (⊆)); [by apply union_least | apply union_subseteq_l]. }
  by rewrite <- size_dom, Hsaved, size_singleton.
Qed.

(** X10: what [deleteAll] reports.  It leaves nothing to read, and on a
    table that holds no row under another id the number it returns is 1 if
    there was cached data and 0 if there was none. *)
Theorem deleteAll_count table :
  dom table ⊆ {[id]} ->
  getData (deleteAll table).1 = None
  /\ (deleteAll table).2 = match getData table with Some _ => 1%nat | None => 0%nat end.
Proof.
  intros Hdom. split; [unfold getData; simpl; by rewrite lookup_empty|].
  unfold getData, deleteAll. simpl.
  destruct (table !! id) as [row|] eqn:Hrow; simpl.
  - assert (Hd : dom table = {[id]}).
    { apply set_eq. intros k. split; [apply Hdom|].
      intros ->%elem_of_singleton. apply elem_of_dom. eauto. }
    by rewrite <- size_dom, Hd, size_singleton.
  - assert (Hd : dom table = ∅).
    { apply set_eq. intros k. split; [|by intros ?%elem_of_empty].
      intros Hk. pose proof (Hdom _ Hk) as ->%elem_of_singleton.
      apply elem_of_dom in Hk as [? ?]. congruence. }
    apply dom_empty_inv_L in Hd. by rewrite Hd, map_size_empty.
Qed.

End RepositoryFacts.

Lemma only_one_row_witness :
  size (foldl applyUpdate (∅ : gmap Z (Row (ReportOutput := string)))
          [SaveData 1700000000 "a"%string; DeleteAll; SaveData 1700003600 "b"%string;
           SaveData 1700007200 "c"%string])
  = 1%nat
  /\ getData (foldl applyUpdate (∅ : gmap Z (Row (ReportOutput := string)))
               [SaveData 1700000000 "a"%string; DeleteAll; SaveData 1700003600 "b"%string;
                SaveData 1700007200 "c"%string])
     = Some "c"%string.
Proof.
  split; [|reflexivity].
  pose proof (only_one_row (∅ : gmap Z (Row (ReportOutput := string)))
                [SaveData 1700000000 "a"%string; DeleteAll; SaveData 1700003600 "b"%string]
                ltac:(rewrite dom_empty_L; apply empty_subseteq)) as (_ & _ & Hone).
  exact (Hone 1700007200 "c"%string).
Defined.

Lemma deleteAll_count_witness :
  (deleteAll (saveData 1700000000 "a"%string ∅).1).2 = 1%nat.
Proof.
  apply (proj2 (deleteAll_count (saveData 1700000000 "a"%string ∅).1
                  ltac:(simpl; rewrite dom_insert_L, dom_empty_L; by apply union_least))).
Defined.

End CachedDataRepositoryFacts.

(** ** Properties of the Kroma proposer script *)

Module KromaFacts.
Import Kroma.

Section ScriptFacts.
Context {World : Type} (respond : forall X : Type, Call X -> World -> X * World).
Context (myAddr : string) (hexZeroPad : string -> Z -> string).

(** Running a sequence: the second part runs in the world the first one
    left, unless the first one did not return. *)
Lemma run_bind {A B : Type} (s : Script A) (k : A -> Script B) (w : World) :
  run respond (s ≫= k) w
  = match run respond s w with
    | (returned a, tr, w') =>
      let '(o, tr', w'') := run respond (k a) w' in (o, tr ++ tr', w'')
    | (threw e, tr, w') => (threw e, tr, w')
    | (exited code, tr, w') => (exited code, tr, w')
    | (unfinished, tr, w') => (unfinished, tr, w')
    end.
Proof.
  revert w. induction s as [a|e|code| |X call k' IH]; intros w;
    change (run respond (Script_bind k ?s) w) with (run respond (s ≫= k) w); cbn.
  - by destruct (run respond (k a) w) as [[o tr] w'].
  - done.
  - done.
  - done.
  - destruct (respond X call w) as [x w1].
    change (Script_bind k (k' x)) with (k' x ≫= k). rewrite IH.
    by destruct (run respond (k' x) w1) as [[[a|e|code|] tr] w2];
      [destruct (run respond (k a) w2) as [[o tr'] w3]|..].
Qed.

(** [getProposedOutputIndex], run: one log query and an outcome read off the
    events it returns. *)
Lemma run_getProposedOutputIndex (w : World) :
  let query := GetBondedLogs myAddr 10000 4775729 in
  let events := (respond _ query w).1 in
  run respond (getProposedOutputIndex myAddr) w
  = (match events with
     | [] => returned None
     | [event] =>
       match args event with
       | Some a => returned (Some (outputIndex a))
       | None => threw TypeError
       end
     | _ :: _ :: _ =>
       threw (Error "Making multiple proposals is currently not supported by this script")
     end,
     [answered query events],
     (respond _ query w).2).
Proof.
  unfold getProposedOutputIndex. cbn.
  change GET_LOGS_MAX_RANGE with 10000. change EARLIEST_BLOCK with 4775729.
  destruct (respond _ (GetBondedLogs myAddr 10000 4775729) w) as [events w'].
  destruct events as [|event [|event' events]]; cbn; [done| |done].
  by destruct (args event).
Qed.

(** X11: what [getProposedOutputIndex] makes of the Bonded events.  It
    reads the logs once, in ranges of 10000 blocks from block 4775729.  It
    returns an output index exactly when there is one event and that event
    has arguments, holding this index; it returns undefined exactly when
    there is no event; it throws the multiple-proposals error exactly when
    there are two events or more, and a TypeError exactly when the single
    event has no arguments. *)
Theorem getProposedOutputIndex_by_events (w : World) :
  let query := GetBondedLogs myAddr 10000 4775729 in
  let events := (respond _ query w).1 in
  let r := run respond (getProposedOutputIndex myAddr) w in
  r.1.2 = [answered query events]
  /\ (forall index, r.1.1 = returned (Some index)
        <-> exists event a, events = [event] /\ args event = Some a /\ outputIndex a = index)
  /\ (r.1.1 = returned None <-> events = [])
  /\ (r.1.1
      = threw (Error "Making multiple proposals is currently not supported by this script")
      <-> (2 <= length events)%nat)
  /\ (r.1.1 = threw TypeError <-> exists event, events = [event] /\ args event = None).
Proof.
  intros query events r. subst r. rewrite run_getProposedOutputIndex. cbv zeta.
  fold query. fold events. cbn [fst snd]. split; [done|].
  destruct events as [|event [|event' rest]].
  - split; [|split; [|split]].
    + intros index. split; [discriminate | intros (? & ? & [=] & _)].
    + done.
    + split; [discriminate | simpl; lia].
    + split; [discriminate | intros (? & [=] & _)].
  - destruct (args event) as [a|] eqn:Hargs.
    + split; [|split; [|split]].
      * intros index. split.
        -- intros [= <-]. by exists event, a.
        -- intros (? & a' & [= <-] & Ha' & <-). congruence.
      * split; discriminate.
      * split; [discriminate | simpl; lia].
      * split; [discriminate | intros (? & [= <-] & ?); congruence].
    + split; [|split; [|split]].
      * intros index. split; [discriminate | intros (? & ? & [= <-] & ? & _); congruence].
      * split; discriminate.
      * split; [discriminate | simpl; lia].
      * split; [by exists event | done].
  - split; [|split; [|split]].
    + intros index. split; [discriminate | intros (? & ? & [=] & _)].
    + split; discriminate.
    + split; [simpl; lia | done].
    + split; [discriminate | intros (? & [=] & _)].
Qed.

Lemma run_forEachChallenge index challenges (w : World) :
  run respond (forEachChallenge index challenges) w
  = (if forallb (fun challenge => bool_decide (is_Some (args challenge))) challenges
     then returned tt else threw TypeError, [], w).
Proof.
  induction challenges as [|challenge rest IH]; cbn; [done|].
  destruct (args challenge) as [a|]; cbn; [|done].
  exact IH.
Qed.

(** [handleChallenges], run: one log query, then the loop. *)
Lemma run_handleChallenges index (w : World) :
  let query := GetChallengeCreatedLogs index 10000 4775729 in
  let challenges := (respond _ query w).1 in
  run respond (handleChallenges index) w
  = (if forallb (fun challenge => bool_decide (is_Some (args challenge))) challenges
     then returned tt else threw TypeError,
     [answered query challenges],
     (respond _ query w).2).
Proof.
  unfold handleChallenges. cbn.
  change GET_LOGS_MAX_RANGE with 10000. change EARLIEST_BLOCK with 4775729.
  destruct (respond _ (GetChallengeCreatedLogs index 10000 4775729) w) as [challenges w'].
  change (Script_bind ?k ?s) with (s ≫= k). cbn.
  by rewrite run_forEachChallenge.
Qed.

(** X12: handling challenges only reads.  [handleChallenges] issues one log
    query for the ChallengeCreated events of the output index and nothing
    else: no deposit, no submission, however many challenges there are.  It
    returns exactly when every event has its arguments and throws a
    TypeError otherwise. *)
Theorem handleChallenges_only_reads index (w : World) :
  let query := GetChallengeCreatedLogs index 10000 4775729 in
  let challenges := (respond _ query w).1 in
  let r := run respond (handleChallenges index) w in
  r.1.2 = [answered query challenges]
  /\ Forall quietCall r.1.2
  /\ (r.1.1 = returned tt <-> Forall (fun challenge => is_Some (args challenge)) challenges)
  /\ (r.1.1 = threw TypeError
      <-> Exists (fun challenge => args challenge = None) challenges).
Proof.
  intros query challenges r. subst r. rewrite run_handleChallenges. cbv zeta.
  fold query. fold challenges. cbn [fst snd].
  split; [done|]. split; [by repeat constructor|].
  assert (Hall : forallb (fun challenge : Event ChallengeCreatedArgs =>
                            bool_decide (is_Some (args challenge))) challenges = true
                 <-> Forall (fun challenge => is_Some (args challenge)) challenges).
  { rewrite forallb_forall, Forall_forall. split; intros Hc challenge Hin.
    - apply list_elem_of_In, Hc in Hin. by apply bool_decide_eq_true_1 in Hin.
    - apply bool_decide_eq_true_2, Hc. by apply list_elem_of_In. }
  assert (Hsome : forallb (fun challenge : Event ChallengeCreatedArgs =>
                             bool_decide (is_Some (args challenge))) challenges = false
                  <-> Exists (fun challenge => args challenge = None) challenges).
  { clear Hall. induction challenges as [|challenge rest IH]; simpl.
    - split; [discriminate | by intros ?%Exists_nil].
    - rewrite Exists_cons, <- IH. destruct (args challenge) as [a|]; simpl.
      + split; [by right|]. by intros [?|?].
      + split; [by left|done]. }
  destruct (forallb _ challenges) eqn:Hb.
  - split; [by rewrite <- Hall|]. split; [discriminate|].
    intros Hex. apply Hsome in Hex. discriminate.
  - split.
    + split; [discriminate|]. intros Hok. apply Hall in Hok. discriminate.
    + split; [|done]. intros _. by apply Hsome.
Qed.

(** X13: with a proposal on record the script only looks.  When the Bonded
    logs hold exactly one event with arguments, [performNextAction] reads the
    ChallengeCreated logs of that output index and stops: two log queries,
    no deposit, no output submission, whatever bound the waiting loops
    have. *)
Theorem performNextAction_with_proposal turns (w : World) event a :
  (respond _ (GetBondedLogs myAddr 10000 4775729) w).1 = [event] ->
  args event = Some a ->
  let w1 := (respond _ (GetBondedLogs myAddr 10000 4775729) w).2 in
  let query := GetChallengeCreatedLogs (outputIndex a) 10000 4775729 in
  let challenges := (respond _ query w1).1 in
  run respond (performNextAction myAddr hexZeroPad turns) w
  = (if forallb (fun challenge => bool_decide (is_Some (args challenge))) challenges
     then returned stop else threw TypeError,
     [answered (GetBondedLogs myAddr 10000 4775729) [event]; answered query challenges],
     (respond _ query w1).2).
Proof.
  intros Hevents Hargs w1 query challenges.
  unfold performNextAction. rewrite run_bind, run_getProposedOutputIndex.
  cbv zeta. rewrite Hevents, Hargs. fold w1.
  rewrite run_bind, run_handleChallenges. cbv zeta. fold query challenges.
  by destruct (forallb _ challenges).
Qed.

Lemma mustWait_true a :
  mustWait myAddr a = true <-> a <> myAddr /\ a <> VALIDATOR_PUBLIC_ROUND_ADDRESS.
Proof.
  unfold mustWait. rewrite andb_true_iff, !negb_true_iff, !bool_decide_eq_false. tauto.
Qed.

Lemma mustWait_false a :
  mustWait myAddr a = false <-> a = myAddr \/ a = VALIDATOR_PUBLIC_ROUND_ADDRESS.
Proof.
  unfold mustWait. rewrite andb_false_iff, !negb_false_iff, !bool_decide_eq_true. tauto.
Qed.

(** The loop of [waitToBecomeProposerOrPublicRound], from the answer in
    hand: the polls it makes and how it ends. *)
Lemma run_waitForTurn turns proposer (w : World) :
  exists rest waits final,
    proposer :: rest = waits ++ [final]
    /\ (run respond (waitForTurn myAddr turns proposer) w).1.2
       = flat_map (fun a => [answered (Sleep 10000) tt; answered NextValidator a]) rest
    /\ Forall (fun a => mustWait myAddr a = true) waits
    /\ ((run respond (waitForTurn myAddr turns proposer) w).1.1 = returned tt
         /\ mustWait myAddr final = false /\ (length waits <= turns)%nat
        \/ (run respond (waitForTurn myAddr turns proposer) w).1.1 = unfinished
           /\ mustWait myAddr final = true /\ length waits = turns).
Proof.
  revert proposer w. induction turns as [|turns IH]; intros proposer w.
  - exists [], [], proposer. cbn. destruct (mustWait myAddr proposer) eqn:Hw; cbn.
    + split; [done|]. split; [done|]. split; [constructor|]. by right.
    + split; [done|]. split; [done|]. split; [constructor|]. left. auto with lia.
  - cbn. destruct (mustWait myAddr proposer) eqn:Hw; cbn.
    + destruct (respond unit _ w) as [[] w1].
      destruct (respond string NextValidator w1) as [proposer' w2].
      change (Script_bind ?k ?s) with (s ≫= k). cbn.
      destruct (IH proposer' w2) as (rest & waits & final & Heq & Htrace & Hwaits & Hend).
      destruct (run respond (waitForTurn myAddr turns proposer') w2) as [[o tr] w3].
      simpl in *. exists (proposer' :: rest), (proposer :: waits), final.
      split; [by rewrite Heq|]. split; [by rewrite Htrace|].
      split; [by constructor|]. simpl.
      destruct Hend as [(-> & ? & ?)|(-> & ? & ?)]; [left|right]; auto with lia.
    + exists [], [], proposer.
      split; [done|]. split; [done|]. split; [constructor|]. left. simpl. auto with lia.
Qed.

(** [waitToBecomeProposerOrPublicRound], run: the polls and the end, in
    terms of the test of the loop. *)
Lemma run_waitToBecomeProposerOrPublicRound turns (w : World) :
  exists waits final,
    (run respond (waitToBecomeProposerOrPublicRound myAddr turns) w).1.2
    = pollsTrace (waits ++ [final])
    /\ Forall (fun a => mustWait myAddr a = true) waits
    /\ ((run respond (waitToBecomeProposerOrPublicRound myAddr turns) w).1.1 = returned tt
         /\ mustWait myAddr final = false /\ (length waits <= turns)%nat
        \/ (run respond (waitToBecomeProposerOrPublicRound myAddr turns) w).1.1 = unfinished
           /\ mustWait myAddr final = true /\ length waits = turns).
Proof.
  unfold waitToBecomeProposerOrPublicRound. cbn.
  destruct (respond string NextValidator w) as [proposer w1].
  change (Script_bind ?k ?s) with (s ≫= k). cbn.
  destruct (run_waitForTurn turns proposer w1)
    as (rest & waits & final & Heq & Htrace & Hwaits & Hend).
  destruct (run respond (waitForTurn myAddr turns proposer) w1) as [[o tr] w2].
  simpl in *. exists waits, final. rewrite <- Heq. simpl. rewrite Htrace. done.
Qed.

(** X14: waiting for the turn.  [waitToBecomeProposerOrPublicRound] polls
    [nextValidator()], sleeping ten seconds before every poll but the first.
    Every answer before the last is neither the script's address nor the
    public round address; the function returns exactly when the last answer
    is one of the two, compared as strings, and is otherwise cut off by the
    bound after that many sleeps. *)
Theorem wait_polls_until_turn turns (w : World) :
  exists waits final,
    (run respond (waitToBecomeProposerOrPublicRound myAddr turns) w).1.2
    = pollsTrace (waits ++ [final])
    /\ Forall (fun a => a <> myAddr /\ a <> VALIDATOR_PUBLIC_ROUND_ADDRESS) waits
    /\ ((run respond (waitToBecomeProposerOrPublicRound myAddr turns) w).1.1 = returned tt
         /\ (final = myAddr \/ final = VALIDATOR_PUBLIC_ROUND_ADDRESS)
         /\ (length waits <= turns)%nat
        \/ (run respond (waitToBecomeProposerOrPublicRound myAddr turns) w).1.1 = unfinished
           /\ final <> myAddr /\ final <> VALIDATOR_PUBLIC_ROUND_ADDRESS
           /\ length waits = turns).
Proof.
  destruct (run_waitToBecomeProposerOrPublicRound turns w)
    as (waits & final & Htrace & Hwaits & Hend).
  exists waits, final. split; [exact Htrace|]. split.
  - eapply Forall_impl; [exact Hwaits|]. intros a. apply mustWait_true.
  - destruct Hend as [(Hret & Hf & ?)|(Hcut & Hf & ?)]; [left|right].
    + apply mustWait_false in Hf. auto.
    + apply mustWait_true in Hf. tauto.
Qed.

Lemma waitForTurn_more_turns turns turns' proposer (w : World) :
  (turns <= turns')%nat ->
  (run respond (waitForTurn myAddr turns proposer) w).1.1 = returned tt ->
  run respond (waitForTurn myAddr turns' proposer) w
  = run respond (waitForTurn myAddr turns proposer) w.
Proof.
  revert turns' proposer w. induction turns as [|turns IH]; intros turns' proposer w Hle.
  - cbn. destruct turns'; cbn; destruct (mustWait myAddr proposer); cbn; done.
  - destruct turns' as [|turns']; [lia|]. cbn.
    destruct (mustWait myAddr proposer); cbn; [|done].
    destruct (respond unit _ w) as [[] w1].
    destruct (respond string NextValidator w1) as [proposer' w2].
    change (Script_bind ?k ?s) with (s ≫= k). cbn.
    intros Hret. rewrite (IH turns' proposer' w2); [done|lia|].
    by destruct (run respond (waitForTurn myAddr turns proposer') w2) as [[o tr] w3].
Qed.

(** X15: the bound of the waiting loop is no part of the result.  Once
    [waitToBecomeProposerOrPublicRound] returns within some number of turns,
    it makes the same calls and leaves the same world for every larger
    bound. *)
Theorem wait_result_independent_of_bound turns turns' (w : World) :
  (turns <= turns')%nat ->
  (run respond (waitToBecomeProposerOrPublicRound myAddr turns) w).1.1 = returned tt ->
  run respond (waitToBecomeProposerOrPublicRound myAddr turns') w
  = run respond (waitToBecomeProposerOrPublicRound myAddr turns) w.
Proof.
  unfold waitToBecomeProposerOrPublicRound. cbn.
  destruct (respond string NextValidator w) as [proposer w1].
  change (Script_bind ?k ?s) with (s ≫= k). cbn.
  intros Hle Hret. rewrite (waitForTurn_more_turns turns turns' proposer w1 Hle); [done|].
  by destruct (run respond (waitForTurn myAddr turns proposer) w1) as [[o tr] w2].
Qed.

(** The clock loop of [submitOutputRoot]: its reads and how it ends. *)
Lemma run_waitForTimestamp turns waitUntil (w : World) :
  exists reads final,
    (run respond (waitForTimestamp turns waitUntil) w).1.2
    = clockTrace reads ++ [answered DateNow final]
    /\ Forall (fun r => r.1 < 1000 * waitUntil) reads
    /\ ((run respond (waitForTimestamp turns waitUntil) w).1.1 = returned tt
         /\ 1000 * waitUntil <= final /\ (length reads <= turns)%nat
        \/ (run respond (waitForTimestamp turns waitUntil) w).1.1 = unfinished
           /\ final < 1000 * waitUntil /\ length reads = turns).
Proof.
  revert w. induction turns as [|turns IH]; intros w; cbn.
  - destruct (respond Z DateNow w) as [now w1]. cbn.
    exists [], now. destruct (Z.ltb_spec now (1000 * waitUntil)); cbn.
    + split; [done|]. split; [constructor|]. by right.
    + split; [done|]. split; [constructor|]. left. auto with lia.
  - destruct (respond Z DateNow w) as [now w1]. cbn.
    destruct (Z.ltb_spec now (1000 * waitUntil)) as [Hearly|Hlate]; cbn.
    + destruct (respond Z DateNow w1) as [now' w2].
      destruct (respond unit _ w2) as [[] w3].
      change (Script_bind ?k ?s) with (s ≫= k). cbn.
      destruct (IH w3) as (reads & final & Htrace & Hreads & Hend).
      destruct (run respond (waitForTimestamp turns waitUntil) w3) as [[o tr] w4].
      simpl in *. exists ((now, now') :: reads), final.
      split; [by rewrite Htrace|]. split; [by constructor|]. simpl.
      destruct Hend as [(-> & ? & ?)|(-> & ? & ?)]; [left|right]; auto with lia.
    + exists [], now. split; [done|]. split; [constructor|]. left. simpl. auto with lia.
Qed.

(** X16: what gets submitted, and when.  When [submitOutputRoot] returns,
    it has submitted once: the padded dummy root for the next L2 block
    number, with the hash and number of the L1 block it read before waiting,
    after a clock read of at least expectedTimestamp + 1 seconds, every
    earlier read being below that; then it waited for the transaction.
    While it is still waiting for that timestamp it has submitted nothing,
    and when the expected timestamp does not fit in 53 bits it throws after
    its three reads, before any wait or submission. *)
Theorem submit_after_expected_timestamp turns (w : World) :
  ((run respond (submitOutputRoot hexZeroPad turns) w).1.1 = returned tt ->
   exists l2Block block expected reads final,
     (run respond (submitOutputRoot hexZeroPad turns) w).1.2
     = [answered NextBlockNumber l2Block; answered GetBlockLatest block;
        answered (ComputeL2Timestamp l2Block) expected]
       ++ clockTrace reads
       ++ [answered DateNow final;
           answered (SubmitL2Output (hexZeroPad "0x1234567890" 32) l2Block
                       (hash block) (number block)) tt;
           answered TxWait tt]
     /\ Forall (fun r => r.1 < 1000 * (Z.of_N expected + 1)) reads
     /\ 1000 * (Z.of_N expected + 1) <= final)
  /\ ((run respond (submitOutputRoot hexZeroPad turns) w).1.1 = unfinished ->
      Forall (fun a => isSubmit a = false)
             (run respond (submitOutputRoot hexZeroPad turns) w).1.2)
  /\ (let l2Block := (respond _ NextBlockNumber w).1 in
      let w1 := (respond _ NextBlockNumber w).2 in
      let block := (respond _ GetBlockLatest w1).1 in
      let w2 := (respond _ GetBlockLatest w1).2 in
      let expected := (respond _ (ComputeL2Timestamp l2Block) w2).1 in
      (2 ^ 53 <= expected)%N ->
      run respond (submitOutputRoot hexZeroPad turns) w
      = (threw NumericFault,
         [answered NextBlockNumber l2Block; answered GetBlockLatest block;
          answered (ComputeL2Timestamp l2Block) expected],
         (respond _ (ComputeL2Timestamp l2Block) w2).2)).
Proof.
  unfold submitOutputRoot. cbn.
  destruct (respond Z NextBlockNumber w) as [l2Block w1]. cbn.
  destruct (respond Block GetBlockLatest w1) as [block w2]. cbn.
  destruct (respond N (ComputeL2Timestamp l2Block) w2) as [expected w3]. cbn.
  destruct (N.leb_spec (2 ^ 53) expected) as [Hbig|Hfits]; cbn.
  { split; [discriminate|]. split; [discriminate|]. done. }
  change (Script_bind ?k ?s) with (s ≫= k). rewrite run_bind.
  destruct (run_waitForTimestamp turns (Z.of_N expected + 1) w3)
    as (reads & final & Htrace & Hreads & Hend).
  destruct (run respond (waitForTimestamp turns (Z.of_N expected + 1)) w3) as [[o tr] w4].
  simpl in Htrace, Hend. subst tr.
  assert (Hquiet : Forall (fun a => isSubmit a = false)
                     (clockTrace reads ++ [answered DateNow final])).
  { apply Forall_app. split; [|by repeat constructor].
    unfold clockTrace. apply Forall_flat_map, Forall_forall. intros r _.
    by repeat constructor. }
  destruct Hend as [(-> & Hfinal & _)|(-> & _ & _)].
  - cbn. destruct (respond unit _ w4) as [[] w5]. destruct (respond unit TxWait w5) as [[] w6].
    cbn. split; [|split; [discriminate | intros ?; lia]]. intros _.
    exists l2Block, block, expected, reads, final. split; [|done].
    by rewrite <- !app_assoc.
  - cbn. split; [discriminate|]. split; [|intros ?; lia]. intros _. by repeat constructor.
Qed.

Lemma quiet_no_deposits (tr : list Answered) :
  Forall quietCall tr -> omap depositValue tr = [].
Proof.
  induction 1 as [|a tr [Ha _] _ IH]; [done|]. cbn. by rewrite Ha.
Qed.

Lemma quiet_no_submit (tr : list Answered) :
  Forall quietCall tr -> Forall (fun a => isSubmit a = false) tr.
Proof. intros Hq. eapply Forall_impl; [exact Hq|]. by intros a [_ ?]. Qed.

Lemma pollsTrace_quiet answers : Forall quietCall (pollsTrace answers).
Proof.
  destruct answers as [|first rest]; [constructor|]. simpl.
  constructor; [done|]. apply Forall_flat_map, Forall_forall. intros a _.
  by repeat constructor.
Qed.

Lemma pollsTrace_answer answers a :
  a ∈ answers -> answered NextValidator a ∈ pollsTrace answers.
Proof.
  destruct answers as [|first rest]; [by intros ?%elem_of_nil|].
  intros [->|Hin]%elem_of_cons; simpl; [apply list_elem_of_here|].
  apply list_elem_of_further, list_elem_of_In, in_flat_map.
  exists a. split; [by apply list_elem_of_In|]. right. by left.
Qed.

(** What [addMyselfToProposerList] does: at most one deposit, of the
    sepolia amount, and it returns only after [isValidator] said yes. *)
Lemma addMyselfToProposerList_summary (w : World) :
  let r := run respond (addMyselfToProposerList myAddr) w in
  (omap depositValue r.1.2 = [] \/ omap depositValue r.1.2 = [100000000000000000])
  /\ Forall (fun a => isSubmit a = false) r.1.2
  /\ (r.1.1 = returned tt -> answered (IsValidator myAddr) true ∈ r.1.2).
Proof.
  unfold addMyselfToProposerList. cbn.
  destruct (respond bool (IsValidator myAddr) w) as [[|] w1]; cbn.
  - split; [by left|]. split; [by repeat constructor|]. intros _. apply list_elem_of_here.
  - destruct (respond unit _ w1) as [[] w2].
    destruct (respond bool (IsValidator myAddr) w2) as [[|] w3]; cbn.
    + split; [by right|]. split; [by repeat constructor|]. intros _.
      do 2 apply list_elem_of_further. apply list_elem_of_here.
    + split; [by right|]. split; [by repeat constructor|]. discriminate.
Qed.

Lemma submitOutputRoot_no_deposit turns (w : World) :
  omap depositValue (run respond (submitOutputRoot hexZeroPad turns) w).1.2 = [].
Proof.
  unfold submitOutputRoot. cbn.
  destruct (respond Z NextBlockNumber w) as [l2Block w1].
  destruct (respond Block GetBlockLatest w1) as [block w2].
  destruct (respond N (ComputeL2Timestamp l2Block) w2) as [expected w3]. cbn.
  destruct (2 ^ 53 <=? expected)%N; cbn; [done|].
  change (Script_bind ?k ?s) with (s ≫= k). rewrite run_bind.
  destruct (run_waitForTimestamp turns (Z.of_N expected + 1) w3)
    as (reads & final & Htrace & _ & Hend).
  destruct (run respond (waitForTimestamp turns (Z.of_N expected + 1)) w3) as [[o tr] w4].
  simpl in Htrace, Hend. subst tr.
  assert (Hquiet : omap depositValue (clockTrace reads ++ [answered DateNow final]) = []).
  { apply quiet_no_deposits, Forall_app. split; [|by repeat constructor].
    unfold clockTrace. apply Forall_flat_map, Forall_forall. intros r _.
    by repeat constructor. }
  destruct Hend as [(-> & _ & _)|(-> & _ & _)]; cbn.
  - destruct (respond unit _ w4) as [[] w5]. destruct (respond unit TxWait w5) as [[] w6].
    cbn. by rewrite omap_app, Hquiet.
  - exact Hquiet.
Qed.

(** Where a call can sit in a sequence whose first part does not hold it. *)
Lemma split_after_prefix (P : Answered -> bool) (l1 l2 pre post : list Answered) a :
  Forall (fun b => P b = false) l1 -> P a = true ->
  l1 ++ l2 = pre ++ a :: post ->
  exists pre', pre = l1 ++ pre' /\ l2 = pre' ++ a :: post.
Proof.
  intros Hl1 Ha. revert pre. induction Hl1 as [|b l1 Hb _ IH]; intros pre Heq.
  - by exists pre.
  - destruct pre as [|c pre]; simpl in Heq.
    + injection Heq as -> _. congruence.
    + injection Heq as -> Heq. destruct (IH pre Heq) as (pre' & -> & ->). by exists pre'.
Qed.

(** [proposeRoot]: deposits and the place of the submission. *)
Lemma proposeRoot_summary turns (w : World) :
  let r := run respond (proposeRoot myAddr hexZeroPad turns) w in
  (omap depositValue r.1.2 = [] \/ omap depositValue r.1.2 = [100000000000000000])
  /\ forall pre a post,
       r.1.2 = pre ++ a :: post -> isSubmit a = true ->
       answered (IsValidator myAddr) true ∈ pre
       /\ exists final,
            answered NextValidator final ∈ pre
            /\ (final = myAddr \/ final = VALIDATOR_PUBLIC_ROUND_ADDRESS).
Proof.
  unfold proposeRoot. cbv zeta. rewrite run_bind.
  destruct (addMyselfToProposerList_summary w) as (Hdep & Hnosub & Hvalid).
  destruct (run respond (addMyselfToProposerList myAddr) w) as [[o1 tr1] w1].
  simpl in Hdep, Hnosub, Hvalid.
  assert (Hstop : forall pre a post,
            tr1 = pre ++ a :: post -> isSubmit a = true -> False).
  { intros pre a post -> Ha. rewrite Forall_app, Forall_cons in Hnosub.
    destruct Hnosub as (_ & Hfalse & _). congruence. }
  destruct o1 as [[]|e|code|]; cbv beta iota zeta;
    try (simpl; split; [exact Hdep|]; intros pre a post Heq Ha; exfalso; by eauto).
  specialize (Hvalid eq_refl).
  rewrite run_bind.
  destruct (run_waitToBecomeProposerOrPublicRound turns w1)
    as (waits & final & Htrace & _ & Hend).
  destruct (run respond (waitToBecomeProposerOrPublicRound myAddr turns) w1)
    as [[o2 tr2] w2].
  simpl in Htrace, Hend. subst tr2.
  pose proof (pollsTrace_quiet (waits ++ [final])) as Hquiet.
  assert (Hquiet1 : Forall (fun b => isSubmit b = false)
                      (tr1 ++ pollsTrace (waits ++ [final]))).
  { apply Forall_app. split; [exact Hnosub | by apply quiet_no_submit]. }
  destruct Hend as [(-> & Hfinal%mustWait_false & _)|(-> & _ & _)]; cbv beta iota zeta.
  - pose proof (submitOutputRoot_no_deposit turns w2) as Hdep3.
    destruct (run respond (submitOutputRoot hexZeroPad turns) w2) as [[o3 tr3] w3].
    simpl in Hdep3. simpl. split.
    + rewrite !omap_app, (quiet_no_deposits _ Hquiet), Hdep3, !app_nil_r. exact Hdep.
    + intros pre a post Heq Ha. rewrite app_assoc in Heq.
      destruct (split_after_prefix isSubmit _ _ _ _ _ Hquiet1 Ha Heq) as (pre' & -> & _).
      split.
      * apply elem_of_app. left. apply elem_of_app. by left.
      * exists final. split; [|exact Hfinal].
        apply elem_of_app. left. apply elem_of_app. right.
        apply pollsTrace_answer, elem_of_app. right. apply list_elem_of_here.
  - simpl. split.
    + rewrite omap_app, (quiet_no_deposits _ Hquiet), app_nil_r. exact Hdep.
    + intros pre a post Heq Ha. exfalso.
      rewrite Heq, Forall_app, Forall_cons in Hquiet1.
      destruct Hquiet1 as (_ & Hfalse & _). congruence.
Qed.

(** [performNextAction]: deposits and the place of a submission. *)
Lemma performNextAction_summary turns (w : World) :
  let r := run respond (performNextAction myAddr hexZeroPad turns) w in
  (omap depositValue r.1.2 = [] \/ omap depositValue r.1.2 = [100000000000000000])
  /\ forall pre a post,
       r.1.2 = pre ++ a :: post -> isSubmit a = true ->
       answered (IsValidator myAddr) true ∈ pre
       /\ exists final,
            answered NextValidator final ∈ pre
            /\ (final = myAddr \/ final = VALIDATOR_PUBLIC_ROUND_ADDRESS).
Proof.
  unfold performNextAction. cbv zeta.
  rewrite run_bind, run_getProposedOutputIndex. cbv zeta.
  destruct (respond _ (GetBondedLogs myAddr 10000 4775729) w) as [events w1].
  cbn [fst snd].
  set (read := answered (GetBondedLogs myAddr 10000 4775729) events).
  assert (Hread : isSubmit read = false) by done.
  assert (Hquiet : forall tr pre a post,
            Forall (fun b => isSubmit b = false) tr ->
            read :: tr = pre ++ a :: post -> isSubmit a = true -> False).
  { intros tr pre a post Htr Heq Ha.
    assert (Hall : Forall (fun b => isSubmit b = false) (pre ++ a :: post))
      by (rewrite <- Heq; by constructor).
    rewrite Forall_app, Forall_cons in Hall. destruct Hall as (_ & Hfalse & _).
    congruence. }
  assert (Hthrow : forall (o : Outcome NextStep) (w' : World),
            (omap depositValue (o, [read], w').1.2 = []
             \/ omap depositValue (o, [read], w').1.2 = [100000000000000000])
            /\ forall pre a post,
                 (o, [read], w').1.2 = pre ++ a :: post -> isSubmit a = true ->
                 answered (IsValidator myAddr) true ∈ pre
                 /\ exists final,
                      answered NextValidator final ∈ pre
                      /\ (final = myAddr \/ final = VALIDATOR_PUBLIC_ROUND_ADDRESS)).
  { intros o w'. split; [by left|]. intros pre a post Heq Ha. exfalso.
    by eapply (Hquiet []); [constructor|exact Heq|]. }
  destruct events as [|event [|event' events]]; [| |apply Hthrow].
  - (* no proposal yet: proposeRoot *)
    rewrite run_bind.
    destruct (proposeRoot_summary turns w1) as [Hdep Horder].
    destruct (run respond (proposeRoot myAddr hexZeroPad turns) w1) as [[o tr] w2].
    simpl in Hdep, Horder.
    assert (Hgoal : (omap depositValue (read :: tr) = []
                     \/ omap depositValue (read :: tr) = [100000000000000000])
                    /\ forall pre a post,
                         read :: tr = pre ++ a :: post -> isSubmit a = true ->
                         answered (IsValidator myAddr) true ∈ pre
                         /\ exists final,
                              answered NextValidator final ∈ pre
                              /\ (final = myAddr
                                  \/ final = VALIDATOR_PUBLIC_ROUND_ADDRESS)).
    { split; [exact Hdep|]. intros pre a post Heq Ha.
      destruct pre as [|b pre]; simpl in Heq.
      - injection Heq as <- _. congruence.
      - injection Heq as <- Heq. destruct (Horder pre a post Heq Ha) as (Hv & final & Hf & ?).
        split; [by apply list_elem_of_further|].
        exists final. split; [by apply list_elem_of_further|done]. }
    destruct o as [[]|e|code|]; simpl; rewrite ?app_nil_r; exact Hgoal.
  - (* one event *)
    destruct (args event) as [a0|]; [|apply Hthrow].
    rewrite run_bind, run_handleChallenges. cbv zeta.
    destruct (respond _ (GetChallengeCreatedLogs (outputIndex a0) 10000 4775729) w1)
      as [challenges w2].
    cbn [fst snd].
    assert (Hgoal : forall (o : Outcome NextStep) tr (w' : World),
              tr = [read; answered (GetChallengeCreatedLogs (outputIndex a0) 10000 4775729)
                             challenges] ->
              (omap depositValue (o, tr, w').1.2 = []
               \/ omap depositValue (o, tr, w').1.2 = [100000000000000000])
              /\ forall pre a post,
                   (o, tr, w').1.2 = pre ++ a :: post -> isSubmit a = true ->
                   answered (IsValidator myAddr) true ∈ pre
                   /\ exists final,
                        answered NextValidator final ∈ pre
                        /\ (final = myAddr \/ final = VALIDATOR_PUBLIC_ROUND_ADDRESS)).
    { intros o tr w' ->. split; [by left|]. intros pre a post Heq Ha. exfalso.
      eapply (Hquiet [_]); [|exact Heq|exact Ha]. by repeat constructor. }
    destruct (forallb _ challenges);
      [exact (Hgoal (returned stop) _ w2 eq_refl) | exact (Hgoal (threw TypeError) _ w2 eq_refl)].
Qed.

(** X17: one deposit at most, of 0.1 ether.  Whatever the chain answers and
    however long the loops may wait, one [performNextAction] makes no deposit
    or exactly one, and its value is [PROPOSER_DEPOSIT.sepolia], 10^17 wei. *)
Theorem at_most_one_sepolia_deposit turns (w : World) :
  omap depositValue (run respond (performNextAction myAddr hexZeroPad turns) w).1.2 = []
  \/ omap depositValue (run respond (performNextAction myAddr hexZeroPad turns) w).1.2
     = [10 ^ 17].
Proof.
  destruct (performNextAction_summary turns w) as [[Hnone|Hone] _].
  - by left.
  - right. rewrite Hone. reflexivity.
Qed.

(** X18: no submission out of turn.  Whenever [performNextAction] submits an
    output root, it has before that seen [isValidator] answer true for its
    address and [nextValidator()] answer its address or the public round
    address. *)
Theorem submission_only_on_turn turns (w : World) pre a post :
  (run respond (performNextAction myAddr hexZeroPad turns) w).1.2 = pre ++ a :: post ->
  isSubmit a = true ->
  answered (IsValidator myAddr) true ∈ pre
  /\ exists final,
       answered NextValidator final ∈ pre
       /\ (final = myAddr \/ final = VALIDATOR_PUBLIC_ROUND_ADDRESS).
Proof.
  intros Htrace Ha.
  destruct (performNextAction_summary turns w) as [_ Horder].
  exact (Horder pre a post Htrace Ha).
Qed.

(** X19: the segments of a simulated challenge.  For a required length n
    the array holds max(1, n) segments: the output root first, then
    [hexZeroPad('0x0', 32)] in every other place; for n = 0 writing index 0
    makes the empty array grow to one segment. *)
Theorem challengeSegments_shape (n : nat) (root : string) :
  length (challengeSegments hexZeroPad n root) = Nat.max 1 n
  /\ challengeSegments hexZeroPad n root !! 0%nat = Some root
  /\ forall i, (0 < i < n)%nat ->
       challengeSegments hexZeroPad n root !! i = Some (hexZeroPad "0x0" 32).
Proof.
  unfold challengeSegments. destruct n as [|n]; simpl.
  - split; [done|]. split; [done|]. intros i ?. lia.
  - rewrite length_fmap, length_replicate. split; [done|]. split; [done|].
    intros [|i] Hi; [lia|]. simpl.
    rewrite list_lookup_fmap, lookup_replicate_2 by lia. done.
Qed.

End ScriptFacts.

(** With two other proposers ahead the script sleeps twice, then it is its
    turn; the clock has moved by twenty seconds. *)
Example toy_wait :
  run toyRespond (waitToBecomeProposerOrPublicRound "0xMe" 5) toyStart
  = (returned tt,
     pollsTrace ["0xA1"; "0xA2"; "0xMe"]%string,
     {| upcoming := []; clock := 1700000000000; validator := false; bonded := [] |}).
Proof. reflexivity. Qed.

Lemma performNextAction_with_proposal_witness :
  let w := {| upcoming := []; clock := 0; validator := true;
              bonded := [ {| args := Some {| outputIndex := 1800 |} |} ] |} in
  (run toyRespond (performNextAction "0xMe" (fun s _ => s) 5) w).1.1 = returned stop.
Proof.
  intros w.
  rewrite (performNextAction_with_proposal toyRespond "0xMe" (fun s _ => s) 5 w
             {| args := Some {| outputIndex := 1800 |} |} {| outputIndex := 1800 |}
             eq_refl eq_refl).
  reflexivity.
Defined.

Lemma wait_result_independent_of_bound_witness :
  run toyRespond (waitToBecomeProposerOrPublicRound "0xMe" 100) toyStart
  = run toyRespond (waitToBecomeProposerOrPublicRound "0xMe" 2) toyStart.
Proof.
  apply (wait_result_independent_of_bound toyRespond "0xMe" 2 100 toyStart).
  - lia.
  - reflexivity.
Defined.

Lemma submit_after_expected_timestamp_witness :
  exists l2Block block expected reads final,
    (run toyRespond (submitOutputRoot (fun s _ => s) 30) toyStart).1.2
    = [answered NextBlockNumber l2Block; answered GetBlockLatest block;
       answered (ComputeL2Timestamp l2Block) expected]
      ++ clockTrace reads
      ++ [answered DateNow final;
          answered (SubmitL2Output "0x1234567890" l2Block (hash block) (number block)) tt;
          answered TxWait tt]
    /\ Forall (fun r => r.1 < 1000 * (Z.of_N expected + 1)) reads
    /\ 1000 * (Z.of_N expected + 1) <= final.
Proof.
  apply (proj1 (submit_after_expected_timestamp toyRespond (fun s _ => s) 30 toyStart)).
  reflexivity.
Defined.

Lemma submission_only_on_turn_witness :
  let tr := (run toyRespond (performNextAction "0xMe" (fun s _ => s) 30) toyStart).1.2 in
  answered (IsValidator "0xMe") true ∈ take 16 tr
  /\ exists final,
       answered NextValidator final ∈ take 16 tr
       /\ (final = "0xMe"%string \/ final = VALIDATOR_PUBLIC_ROUND_ADDRESS).
Proof.
  intros tr.
  apply (submission_only_on_turn toyRespond "0xMe" (fun s _ => s) 30 toyStart
           (take 16 tr)
           (answered (SubmitL2Output "0x1234567890" 1800 "0xb10c" 5000000) tt)
           (drop 17 tr)).
  - reflexivity.
  - reflexivity.
Defined.

End KromaFacts.
